(** * power_images: thumbnails, static fallback and unique image fields

    A shallow embedding of [power_images/fields.py] and
    [power_images/helpers.py].  Python objects become records, the mutable
    surroundings (storage backend, logger, database) become an explicit
    world threaded through a state-and-exception monad, and the framework
    and imaging libraries the code calls into are parameters. *)

From Stdlib Require Import ZArith Lia Ascii String DecimalString.
From stdpp Require Import base option list strings gmap.

Open Scope string_scope.
Open Scope list_scope.

#[local] Arguments String.append !_ _ / : simpl nomatch.

(** ** Python strings

    Strings are ASCII text; [os.path] is [posixpath]. *)

Module Py.

Definition sep : ascii := "/"%char.
Definition extsep : ascii := "."%char.

Definition is_sep (c : ascii) : bool := Ascii.eqb c sep.

Definition str_is_empty (s : string) : bool :=
  match s with EmptyString => true | String _ _ => false end.

(** [str(n)] for an [int]. *)
Definition str_of_int (n : Z) : string :=
  NilZero.string_of_int (Z.to_int n).

(** [c.isdigit()] for one character. *)
Definition char_isdigit (c : ascii) : bool :=
  let n := nat_of_ascii c in (48 <=? n)%nat && (n <=? 57)%nat.

Fixpoint all_chars (p : ascii -> bool) (s : string) : bool :=
  match s with
  | EmptyString => true
  | String c r => p c && all_chars p r
  end.

(** [s.isdigit()]: at least one character and all of them digits. *)
Definition isdigit (s : string) : bool :=
  negb (str_is_empty s) && all_chars char_isdigit s.

Definition char_lower (c : ascii) : ascii :=
  let n := nat_of_ascii c in
  if (65 <=? n)%nat && (n <=? 90)%nat then ascii_of_nat (n + 32) else c.

(** [s.lower()] *)
Fixpoint lower (s : string) : string :=
  match s with
  | EmptyString => EmptyString
  | String c r => String (char_lower c) (lower r)
  end.

(** [s.startswith('/')] *)
Definition startswith_sep (s : string) : bool :=
  match s with
  | String c _ => is_sep c
  | EmptyString => false
  end.

(** [s.endswith('/')] *)
Fixpoint endswith_sep (s : string) : bool :=
  match s with
  | EmptyString => false
  | String c EmptyString => is_sep c
  | String _ r => endswith_sep r
  end.

(** [s.rstrip(c)] for a single character [c]. *)
Fixpoint rstrip (c : ascii) (s : string) : string :=
  match s with
  | EmptyString => EmptyString
  | String a r =>
      let r' := rstrip c r in
      if Ascii.eqb a c && str_is_empty r' then EmptyString else String a r'
  end.

(** [s.lstrip(c)] for a single character [c]. *)
Fixpoint lstrip (c : ascii) (s : string) : string :=
  match s with
  | EmptyString => EmptyString
  | String a r => if Ascii.eqb a c then lstrip c r else s
  end.

(** [s.strip(c)] *)
Definition strip (c : ascii) (s : string) : string := rstrip c (lstrip c s).

(** [s.split('/')]: never the empty list. *)
Fixpoint split_sep (s : string) : list string :=
  match s with
  | EmptyString => [EmptyString]
  | String c r =>
      if is_sep c then EmptyString :: split_sep r
      else match split_sep r with
           | x :: xs => String c x :: xs
           | [] => [String c EmptyString]
           end
  end.

(** ['/'.join(l)] *)
Fixpoint join_sep (l : list string) : string :=
  match l with
  | [] => EmptyString
  | [x] => x
  | x :: xs => x +:+ String sep (join_sep xs)
  end.

(** [l.insert(i, x)]: a negative index counts from the end, and an index
    outside the list is clamped to one of its ends. *)
Definition list_insert {A} (i : Z) (x : A) (l : list A) : list A :=
  let n := Z.of_nat (length l) in
  let j := if (i <? 0)%Z then Z.max 0 (i + n) else Z.min i n in
  take (Z.to_nat j) l ++ x :: drop (Z.to_nat j) l.

End Py.

(** ** [os.path] (POSIX flavour) *)

Module posixpath.
Import Py.

(** The pair [(p[:i], p[i:])] with [i = p.rfind('/') + 1]. *)
Fixpoint cut (p : string) : string * string :=
  match p with
  | EmptyString => (EmptyString, EmptyString)
  | String c r =>
      let '(h, t) := cut r in
      match h with
      | EmptyString =>
          if is_sep c then (String c EmptyString, t)
          else (EmptyString, String c t)
      | String _ _ => (String c h, t)
      end
  end.

(** [os.path.basename(p)] *)
Definition basename (p : string) : string := snd (cut p).

(** [os.path.dirname(p)]: the head, without its trailing separators
    unless it consists of separators only. *)
Definition dirname (p : string) : string :=
  let head := fst (cut p) in
  if negb (str_is_empty head) && negb (str_is_empty (rstrip sep head))
  then rstrip sep head
  else head.

(** One round of the loop of [os.path.join]. *)
Definition join_step (path b : string) : string :=
  if startswith_sep b then b
  else if str_is_empty path || endswith_sep path then path +:+ b
  else path +:+ String sep b.

(** [os.path.join(a, *p)] *)
Definition join (a : string) (p : list string) : string :=
  fold_left join_step p a.

(** The pair [(p[:i], p[i:])] with [i = p.rfind('.')], or [None] when
    [p] has no dot. *)
Fixpoint cut_dot (p : string) : option (string * string) :=
  match p with
  | EmptyString => None
  | String c r =>
      match cut_dot r with
      | Some (h, t) => Some (String c h, t)
      | None => if Ascii.eqb c extsep then Some (EmptyString, p) else None
      end
  end.

(** [os.path.splitext(p)]: the extension starts at the last dot of the
    last component, unless that component has dots at its front only. *)
Definition splitext (p : string) : string * string :=
  let '(head, tail) := cut p in
  match cut_dot tail with
  | Some (root, ext) =>
      if str_is_empty (lstrip extsep root) then (p, EmptyString)
      else (head +:+ root, ext)
  | None => (p, EmptyString)
  end.

End posixpath.

(** ** Python values, exceptions and outcomes *)

#[warnings="-register-all"]
Inductive pyval : Type :=
| PNone
| PBool (b : bool)
| PInt (n : Z)
| PStr (s : string)
| PSeq (l : list pyval).

(** An [IOError] ([OSError]) object, by the arguments it was built from.
    Its data attributes are [args], [errno], [strerror] and [filename]; the
    last three are [None] unless it was built from two or three
    arguments. *)
Record io_error := mk_io_error {
  io_ctor_args : list pyval
}.

Inductive exn : Type :=
| ValueError (msg : string)
| TypeError (msg : string)
| AttributeError (msg : string)
| IOError (e : io_error)
| ImproperlyConfigured (msg : string)
| OtherError (cls msg : string).

Inductive outcome (A : Type) : Type :=
| Returned (a : A)
| Raised (e : exn).
Arguments Returned {A} a.
Arguments Raised {A} e.

#[export] Instance outcome_ret : MRet outcome := fun A a => Returned a.
#[export] Instance outcome_bind : MBind outcome := fun A B f o =>
  match o with
  | Returned a => f a
  | Raised e => Raised e
  end.

Definition io_errno (e : io_error) : pyval :=
  match io_ctor_args e with
  | [n; _] | [n; _; _] => n
  | _ => PNone
  end.

Definition io_strerror (e : io_error) : pyval :=
  match io_ctor_args e with
  | [_; s] | [_; s; _] => s
  | _ => PNone
  end.

Definition io_filename (e : io_error) : pyval :=
  match io_ctor_args e with
  | [_; _; f] => f
  | _ => PNone
  end.

(** [e.args]: the constructor arguments, without the file name. *)
Definition io_args (e : io_error) : pyval :=
  match io_ctor_args e with
  | [n; s; _] => PSeq [n; s]
  | l => PSeq l
  end.

(** Attribute lookup [getattr(e, attr)] on a caught [IOError]: a name that
    is not an attribute of the object raises [AttributeError]. *)
Definition IOError_getattr (e : io_error) (attr : string) : outcome pyval :=
  if String.eqb attr "args" then Returned (io_args e)
  else if String.eqb attr "errno" then Returned (io_errno e)
  else if String.eqb attr "strerror" then Returned (io_strerror e)
  else if String.eqb attr "filename" then Returned (io_filename e)
  else Raised (AttributeError
                 ("'IOError' object has no attribute '" +:+ attr +:+ "'")).

(** ** Model instances, fields and field files *)

(** A model instance: its primary key, its [str()], and the values of the
    string-valued attributes this code reads (the stored file name of a
    file field, the text of a fallback field): [None] or a string. *)
Record Instance := mk_instance {
  pk : option Z;
  instance_str : string;
  attrs : gmap string (option string)
}.

(** Python truth of [None] or a string. *)
Definition truthy (v : option string) : bool :=
  match v with
  | Some s => negb (Py.str_is_empty s)
  | None => false
  end.

(** A [UniqueImageField] ([choice_field = None]: the class has no such
    attribute) or a [SelectableUniqueImageField] ([choice_field = Some c]).
    [base_kwargs] are the keyword arguments kept by [models.ImageField]. *)
Record Field := mk_field {
  field_name : string;
  thumbnails : bool;
  thumbnail_sizes : list Z;
  choice_field : option string;
  base_kwargs : gmap string pyval
}.

(** A model class, as far as [contribute_to_class] looks at it. *)
Record ModelClass := mk_model {
  model_label : string;
  abstract : bool
}.

(** *** [deconstruct] and the constructors *)

Abbreviation kwargs := (gmap string pyval).

(** What [deconstruct] returns: [(name, path, args, kwargs)]. *)
Definition deconstructed : Type := string * string * list pyval * kwargs.

Definition class_path (self : Field) : string :=
  match choice_field self with
  | None => "power_images.fields.UniqueImageField"
  | Some _ => "power_images.fields.SelectableUniqueImageField"
  end.

(** [models.ImageField.deconstruct]: the field's name, the import path of
    its class, no positional arguments, and the framework's own keyword
    arguments. *)
Definition ImageField_deconstruct (self : Field) : deconstructed :=
  (field_name self, class_path self, [], base_kwargs self).

Definition UniqueImageField_deconstruct (self : Field) : deconstructed :=
  let '(nm, pth, args, kw) := ImageField_deconstruct self in
  let kw :=
    if thumbnails self
    then <["thumbnail_sizes" := PSeq (PInt <$> thumbnail_sizes self)]>
           (<["thumbnails" := PBool (thumbnails self)]> kw)
    else kw in
  (nm, pth, args, kw).

Definition SelectableUniqueImageField_deconstruct (self : Field)
  : deconstructed :=
  let '(nm, pth, args, kw) := UniqueImageField_deconstruct self in
  (nm, pth, args, <["choice_field" := PStr (default "" (choice_field self))]> kw).

(** [self.deconstruct()], resolved along the class of the field. *)
Definition deconstruct (self : Field) : deconstructed :=
  match choice_field self with
  | None => UniqueImageField_deconstruct self
  | Some _ => SelectableUniqueImageField_deconstruct self
  end.

(** Reading keyword arguments back into the typed attributes of [Field];
    a value of another type has no counterpart in [Field] and is
    reported as a [TypeError]. *)
Definition as_int (v : pyval) : option Z :=
  match v with PInt n => Some n | _ => None end.

Definition kw_flag (v : option pyval) : outcome bool :=
  match v with
  | None => Returned false
  | Some (PBool b) => Returned b
  | Some _ => Raised (TypeError "thumbnails: expected a bool")
  end.

Definition kw_sizes (v : option pyval) : outcome (list Z) :=
  match v with
  | None => Returned []
  | Some (PSeq l) =>
      match mapM as_int l with
      | Some sizes => Returned sizes
      | None => Raised (TypeError "thumbnail_sizes: expected integers")
      end
  | Some _ => Raised (TypeError "thumbnail_sizes: expected a sequence")
  end.

(** [UniqueImageField.__init__(self, thumbnails=False, thumbnail_sizes=(),
    **kwargs)]: the remaining keyword arguments go to
    [models.ImageField.__init__]. *)
Definition UniqueImageField_init (kw : kwargs) : outcome Field :=
  kw_flag (kw !! "thumbnails") ≫= fun flag =>
  kw_sizes (kw !! "thumbnail_sizes") ≫= fun sizes =>
  Returned (mk_field "" flag sizes None
              (base.delete "thumbnails" (base.delete "thumbnail_sizes" kw))).

(** [SelectableUniqueImageField.__init__(self, choice_field, **kwargs)] *)
Definition SelectableUniqueImageField_init (kw : kwargs) : outcome Field :=
  match kw !! "choice_field" with
  | Some (PStr c) =>
      UniqueImageField_init (base.delete "choice_field" kw) ≫= fun f =>
      Returned (mk_field (field_name f) (thumbnails f) (thumbnail_sizes f)
                         (Some c) (base_kwargs f))
  | Some _ => Raised (TypeError "choice_field: expected a string")
  | None =>
      Raised (TypeError
                "__init__() missing 1 required positional argument: 'choice_field'")
  end.

(** Rebuilding a field from what [deconstruct] returned: the class named
    by the path is called with the keyword arguments, and the field is
    given its name. *)
Definition reconstruct (d : deconstructed) : outcome Field :=
  let '(nm, pth, args, kw) := d in
  (if String.eqb pth "power_images.fields.SelectableUniqueImageField"
   then SelectableUniqueImageField_init kw
   else UniqueImageField_init kw) ≫= fun f =>
  Returned (mk_field nm (thumbnails f) (thumbnail_sizes f) (choice_field f)
                     (base_kwargs f)).

(** The two classes built with [image_field_file_factory]. *)
Inductive AttrClass : Type :=
| ThumbnailsFieldFile       (* (ThumbnailsMixin, ImageFieldFile) *)
| ThumbnailChoiceFieldFile. (* (ThumbnailChoiceMixin, ImageFieldFile) *)

(** [attr_class] of the field's class. *)
Definition attr_class (f : Field) : AttrClass :=
  match choice_field f with
  | None => ThumbnailsFieldFile
  | Some _ => ThumbnailChoiceFieldFile
  end.

Record FieldFile := mk_file {
  instance : Instance;
  field : Field;
  name : option string
}.

(** [bool(self)] of a field file is [bool(self.name)]. *)
Definition file_bool (self : FieldFile) : bool := truthy (name self).

(** [getattr(instance, field.name)]: the descriptor wraps the stored value
    in the field's [attr_class]. *)
Definition getattr_file (inst : Instance) (f : Field) : FieldFile :=
  mk_file inst f (default None (attrs inst !! field_name f)).

(** [FieldFile.__eq__]: two field files are equal when their names are. *)
Definition file_eq (a b : FieldFile) : bool :=
  bool_decide (name a = name b).

(** ** The surroundings: storage backend and libraries *)

(** A storage backend over states [St]: the operations this code calls. *)
Record Storage (St : Type) := mk_storage {
  st_exists : St -> string -> bool;
  st_delete : St -> string -> St;
  st_save : St -> string -> string -> string * St;
  st_listdir : St -> string -> list string * list string;
  st_path : string -> string;
  st_url : string -> string
}.
Arguments st_exists {St}.
Arguments st_delete {St}.
Arguments st_save {St}.
Arguments st_listdir {St}.
Arguments st_path {St}.
Arguments st_url {St}.

(** The imaging library and the static-files application. *)
Record Libs := mk_libs {
  Image : Type;
  PILImage_open : string -> outcome Image;
  Thumbnail_process : Z -> Image -> outcome Image;
  Image_save : Image -> string -> outcome string;
  static : string -> string;
  finders_find : string -> option string
}.

(** What the program does to its surroundings, in order. *)
Inductive event : Type :=
| Exists (path : string)
| Delete (path : string)
| Save (path content : string)
| Listdir (path : string)
| InstanceSave (pk : option Z).

#[export] Instance event_eq_dec : EqDecision event.
Proof. solve_decision. Defined.

Definition is_save (e : event) : bool :=
  match e with Save _ _ => true | _ => false end.

Record World (St : Type) := mk_world {
  store : St;
  trace : list event;
  warnings : list pyval;
  database : gmap Z Instance
}.
Arguments mk_world {St}.
Arguments store {St}.
Arguments trace {St}.
Arguments warnings {St}.
Arguments database {St}.

(** The [size] argument of the thumbnail methods: an [int], or a
    directory name in [remove_thumbnails]. *)
Inductive size_arg : Type :=
| SizeInt (n : Z)
| SizeStr (s : string).

(** [str(size)] *)
Definition str (size : size_arg) : string :=
  match size with
  | SizeInt n => Py.str_of_int n
  | SizeStr s => s
  end.

(** ** The program *)

Section Program.

Context {St : Type} (storage : Storage St) (libs : Libs).

(** Computations: they read and change the world and may raise. *)
Definition M (A : Type) : Type := World St -> outcome A * World St.

#[global] Instance M_ret : MRet M := fun A a w => (Returned a, w).
#[global] Instance M_bind : MBind M := fun A B f m w =>
  match m w with
  | (Returned a, w') => f a w'
  | (Raised e, w') => (Raised e, w')
  end.

Definition lift {A} (o : outcome A) : M A := fun w => (o, w).

Definition record (e : event) (w : World St) : World St :=
  mk_world (store w) (trace w ++ [e]) (warnings w) (database w).

(** [for x in l: body(x)] *)
Fixpoint for_each {A} (l : list A) (body : A -> M unit) : M unit :=
  match l with
  | [] => mret tt
  | x :: xs => body x ≫= fun _ => for_each xs body
  end.

(** [try: body  except IOError as e: handler(e)] *)
Definition try_except_IOError {A} (body : M A) (handler : io_error -> M A)
  : M A :=
  fun w =>
    match body w with
    | (Raised (IOError e), w') => handler e w'
    | r => r
    end.

(** *** Calls into the storage backend *)

Definition storage_exists (path : string) : M bool := fun w =>
  (Returned (st_exists storage (store w) path), record (Exists path) w).

Definition storage_delete (path : string) : M unit := fun w =>
  let w' := record (Delete path) w in
  (Returned tt,
   mk_world (st_delete storage (store w) path)
            (trace w') (warnings w') (database w')).

Definition storage_save (path content : string) : M string := fun w =>
  let w' := record (Save path content) w in
  let '(saved, s') := st_save storage (store w) path content in
  (Returned saved, mk_world s' (trace w') (warnings w') (database w')).

Definition storage_listdir (path : string)
  : M (list string * list string) := fun w =>
  (Returned (st_listdir storage (store w) path), record (Listdir path) w).

(** [logger.warning(msg)] *)
Definition logger_warning (msg : pyval) : M unit := fun w =>
  (Returned tt,
   mk_world (store w) (trace w) (warnings w ++ [msg]) (database w)).

(** [instance.save()], as far as this code is concerned. *)
Definition instance_save (inst : Instance) : M unit := fun w =>
  (Returned tt, record (InstanceSave (pk inst)) w).

(** [os.path.dirname] and [os.path.basename] of a value that may be
    [None]. *)
Definition os_path_dirname (p : option string) : outcome string :=
  match p with
  | Some s => Returned (posixpath.dirname s)
  | None => Raised (TypeError "expected str, bytes or os.PathLike object, not NoneType")
  end.

Definition os_path_basename (p : option string) : outcome string :=
  match p with
  | Some s => Returned (posixpath.basename s)
  | None => Raised (TypeError "expected str, bytes or os.PathLike object, not NoneType")
  end.

(** *** [django.db.models.fields.files.FieldFile] *)

Definition FieldFile_require_file (self : FieldFile) : outcome unit :=
  if file_bool self then Returned tt
  else Raised (ValueError ("The '" +:+ field_name (field self)
                           +:+ "' attribute has no file associated with it.")).

Definition FieldFile_get_path (self : FieldFile) : outcome (option string) :=
  FieldFile_require_file self ≫= fun _ =>
  Returned (st_path storage <$> name self).

Definition FieldFile_get_url (self : FieldFile) : outcome string :=
  FieldFile_require_file self ≫= fun _ =>
  Returned (st_url storage (default "" (name self))).

(** [FieldFile.delete(save)]: nothing for an empty file; otherwise the
    file is deleted from storage under its name, the name is cleared,
    and the instance is saved when [save] is set. *)
Definition FieldFile_delete (self : FieldFile) (save : bool)
  : M FieldFile :=
  if negb (file_bool self) then mret self
  else
    storage_delete (default "" (name self)) ≫= fun _ =>
    let inst' := mk_instance (pk (instance self))
                             (instance_str (instance self))
                             (<[field_name (field self) := None]>
                                (attrs (instance self))) in
    let self' := mk_file inst' (field self) None in
    (if save then instance_save inst' else mret tt) ≫= fun _ =>
    mret self'.

(** *** [helpers.py] *)

Definition get_ext (path : string) : string :=
  let '(path_name, ext) := posixpath.splitext path in
  let ext := Py.lower (Py.strip Py.extsep ext) in
  if String.eqb ext "jpg" then "jpeg" else ext.

Definition save_pilimage (image : Image libs) (path : string) : M string :=
  lift (Image_save libs image (get_ext path)) ≫= fun content =>
  storage_save path content.

(** *** [StaticChoiceMixin] *)

Definition StaticChoiceMixin_get_choice_field (self : FieldFile)
  : outcome (option string) :=
  let attr := default "" (choice_field (field self)) in
  match attrs (instance self) !! attr with
  | Some v => Returned v
  | None =>
      Raised (ImproperlyConfigured
                (instance_str (instance self) +:+ " has no " +:+ attr
                 +:+ " field."))
  end.

Definition StaticChoiceMixin_get_url (self : FieldFile) : outcome string :=
  if file_bool self then FieldFile_get_url self
  else
    StaticChoiceMixin_get_choice_field self ≫= fun choice =>
    if truthy choice then Returned (static libs (default "" choice))
    else FieldFile_get_url self.

Definition StaticChoiceMixin_get_path (self : FieldFile)
  : outcome (option string) :=
  if file_bool self then FieldFile_get_path self
  else
    StaticChoiceMixin_get_choice_field self ≫= fun choice =>
    if truthy choice then Returned (finders_find libs (default "" choice))
    else FieldFile_get_path self.

(** [self.url] and [self.path], resolved along the class of [self]. *)
Definition url (self : FieldFile) : outcome string :=
  match attr_class (field self) with
  | ThumbnailsFieldFile => FieldFile_get_url self
  | ThumbnailChoiceFieldFile => StaticChoiceMixin_get_url self
  end.

Definition path (self : FieldFile) : outcome (option string) :=
  match attr_class (field self) with
  | ThumbnailsFieldFile => FieldFile_get_path self
  | ThumbnailChoiceFieldFile => StaticChoiceMixin_get_path self
  end.

(** *** [ThumbnailsMixin] *)

Definition _require_thumbnail (self : FieldFile) : outcome unit :=
  if negb (thumbnails (field self))
  then Raised (ValueError (field_name (field self)
                           +:+ " has not thumbnails enabled."))
  else Returned tt.

Definition get_thumbnail_path (self : FieldFile) (size : size_arg)
  : outcome string :=
  _require_thumbnail self ≫= fun _ =>
  path self ≫= fun p =>
  os_path_dirname p ≫= fun d =>
  os_path_basename (name self) ≫= fun b =>
  Returned (posixpath.join d [str size; b]).

Definition ThumbnailsMixin_generate_thumbnail (self : FieldFile) (size : Z)
  : M unit :=
  lift (_require_thumbnail self) ≫= fun _ =>
  lift (FieldFile_require_file self) ≫= fun _ =>
  lift (get_thumbnail_path self (SizeInt size)) ≫= fun target =>
  storage_exists target ≫= fun found =>
  if negb found then
    try_except_IOError
      (lift (path self) ≫= fun p =>
       lift (match p with
             | Some s => PILImage_open libs s
             | None => Raised (AttributeError
                                 "'NoneType' object has no attribute 'read'")
             end) ≫= fun image =>
       lift (Thumbnail_process libs size image) ≫= fun resized_image =>
       save_pilimage resized_image target ≫= fun _ =>
       mret tt)
      (fun e =>
         lift (IOError_getattr e "value") ≫= fun v =>
         logger_warning v)
  else mret tt.

Definition ThumbnailChoiceMixin_generate_thumbnail (self : FieldFile)
    (size : Z) : M unit :=
  if file_bool self then ThumbnailsMixin_generate_thumbnail self size
  else mret tt.

(** [self.generate_thumbnail(size)], resolved along the class of [self]. *)
Definition generate_thumbnail (self : FieldFile) (size : Z) : M unit :=
  match attr_class (field self) with
  | ThumbnailsFieldFile => ThumbnailsMixin_generate_thumbnail self size
  | ThumbnailChoiceFieldFile =>
      ThumbnailChoiceMixin_generate_thumbnail self size
  end.

Definition generate_thumbnails (self : FieldFile) : M unit :=
  lift (_require_thumbnail self) ≫= fun _ =>
  for_each (thumbnail_sizes (field self)) (generate_thumbnail self).

Definition ThumbnailsMixin_remove_thumbnails (self : FieldFile) : M unit :=
  lift (path self) ≫= fun p =>
  lift (os_path_dirname p) ≫= fun root_path =>
  storage_listdir root_path ≫= fun listing =>
  let thumbnail_dirs := fst listing in
  let sizes := List.filter Py.isdigit thumbnail_dirs in
  for_each sizes (fun size =>
    lift (get_thumbnail_path self (SizeStr size)) ≫= fun target =>
    storage_delete target).

Definition ThumbnailChoiceMixin_remove_thumbnails (self : FieldFile)
  : M unit :=
  if file_bool self then ThumbnailsMixin_remove_thumbnails self
  else mret tt.

(** [self.remove_thumbnails()], resolved along the class of [self]. *)
Definition remove_thumbnails (self : FieldFile) : M unit :=
  match attr_class (field self) with
  | ThumbnailsFieldFile => ThumbnailsMixin_remove_thumbnails self
  | ThumbnailChoiceFieldFile => ThumbnailChoiceMixin_remove_thumbnails self
  end.

Definition get_thumbnail_url (self : FieldFile) (size : Z)
  : M (option string) :=
  lift (_require_thumbnail self) ≫= fun _ =>
  lift (url self) ≫= fun u =>
  if negb (Py.str_is_empty u) then
    generate_thumbnail self size ≫= fun _ =>
    lift (url self) ≫= fun u' =>
    let url_path := Py.split_sep u' in
    let url_path := Py.list_insert (-1) (Py.str_of_int size) url_path in
    mret (Some (Py.join_sep url_path))
  else mret None.

(** [ThumbnailsMixin.delete(save)]; the result is [self] as the call
    leaves it. *)
Definition ThumbnailsMixin_delete (self : FieldFile) (save : bool)
  : M FieldFile :=
  (if thumbnails (field self) then remove_thumbnails self else mret tt)
    ≫= fun _ =>
  FieldFile_delete self save.

(** *** [UniqueImageField] *)

(** [instance._default_manager.get(pk=instance.pk)], with [None] for
    [DoesNotExist]. *)
Definition default_manager_get (key : option Z) : M (option Instance) :=
  fun w => (Returned (key ≫= fun k => database w !! k), w).

(** [remove_unused_files(instance)]; a model instance is always true in
    [if old_instance:], so that test tells [None] from a record. *)
Definition remove_unused_files (self : Field) (inst : Instance) : M unit :=
  default_manager_get (pk inst) ≫= fun old_instance =>
  match old_instance with
  | Some old =>
      let db_image := getattr_file old self in
      let current_image := getattr_file inst self in
      if negb (file_eq db_image current_image)
      then ThumbnailsMixin_delete db_image false ≫= fun _ => mret tt
      else mret tt
  | None => mret tt
  end.

(** *** The [pre_save] signal *)

(** [contribute_to_class(cls, name)]: the field takes its name, and its
    [remove_unused_files] is connected to [pre_save] for sender [cls]
    unless [cls] is abstract.  [receivers] pairs each sender with the
    field whose hook is connected. *)
Definition contribute_to_class (self : Field) (cls : ModelClass)
    (nm : string) (receivers : list (string * Field))
  : Field * list (string * Field) :=
  let self' := mk_field nm (thumbnails self) (thumbnail_sizes self)
                        (choice_field self) (base_kwargs self) in
  (self',
   if negb (abstract cls) then receivers ++ [(model_label cls, self')]
   else receivers).

(** [signals.pre_save.send(sender=cls, instance=instance)] *)
Definition pre_save_send (receivers : list (string * Field))
    (sender : string) (inst : Instance) : M unit :=
  for_each (List.filter (fun r => String.eqb (fst r) sender) receivers)
           (fun r => remove_unused_files (snd r) inst).

End Program.

(** ** Saving a file *)

Section Saving.

Context {St : Type} (storage : Storage St) (libs : Libs).

(** [field.generate_filename(instance, name)]: where the framework puts
    an upload ([upload_to] and the storage's valid names). *)
Variable generate_filename : Field -> Instance -> string -> string.



End Saving.

(** ** [md5_checksum] *)

Section Checksum.

(** [hashlib]: the hexadecimal MD5 digest of a byte string. *)
Variable md5_hexdigest_of : string -> string.

(** A [hashlib.md5()] object, by the bytes it was fed so far. *)
Record md5 := mk_md5 { md5_fed : string }.

Definition md5_new : md5 := mk_md5 "".

(** [m.update(chunk)] *)
Definition md5_update (m : md5) (chunk : string) : md5 :=
  mk_md5 (md5_fed m +:+ chunk).

(** [m.hexdigest()] *)
Definition md5_hexdigest (m : md5) : string := md5_hexdigest_of (md5_fed m).

(** [md5_checksum(content)], with [content.chunks()] as the list of its
    chunks. *)
Definition md5_checksum (chunks : list string) : string :=
  md5_hexdigest (fold_left md5_update chunks md5_new).

End Checksum.

(** ** A file-system storage held in memory

    The state maps the absolute path of each stored file to its content;
    directories are the proper prefixes of those paths. *)

Module MemStorage.

Definition location : string := "/media".
Definition base_url : string := "/media/".

Definition full (nm : string) : string := posixpath.join location [nm].

Fixpoint strip_prefix (pre s : string) : option string :=
  match pre, s with
  | EmptyString, _ => Some s
  | String a pre', String b s' =>
      if Ascii.eqb a b then strip_prefix pre' s' else None
  | String _ _, EmptyString => None
  end.

(** The entry of directory [dir] that the file at [file] lies under:
    [inl d] for a subdirectory, [inr f] for a file of [dir] itself. *)
Definition entry_under (dir file : string) : option (string + string) :=
  match strip_prefix (dir +:+ "/") file with
  | Some rest =>
      match Py.split_sep rest with
      | [f] => Some (inr f)
      | d :: _ => Some (inl d)
      | [] => None
      end
  | None => None
  end.

Fixpoint dedup_str (l : list string) : list string :=
  match l with
  | [] => []
  | x :: xs => if bool_decide (x ∈ xs) then dedup_str xs else x :: dedup_str xs
  end.

Definition listdir (s : gmap string string) (p : string)
  : list string * list string :=
  let entries := omap (entry_under (full p)) (fst <$> map_to_list s) in
  (dedup_str (omap (fun e => match e with inl d => Some d | inr _ => None end)
                   entries),
   omap (fun e => match e with inr f => Some f | inl _ => None end) entries).

Definition exists_ (s : gmap string string) (nm : string) : bool :=
  bool_decide (is_Some (s !! full nm)).

(** [Storage.save]: under the given name when it is free, under a
    changed name otherwise. *)
Definition save (s : gmap string string) (nm content : string)
  : string * gmap string string :=
  let nm' := if exists_ s nm then nm +:+ "_1" else nm in
  (nm', <[full nm' := content]> s).

Definition backend : Storage (gmap string string) :=
  {| st_exists := exists_;
     st_delete := fun s nm => base.delete (full nm) s;
     st_save := save;
     st_listdir := listdir;
     st_path := full;
     st_url := fun nm => base_url +:+ nm |}.

(** Stand-ins for the imaging library and the static-files finders: the
    only readable source image is [/media/photos/cat.jpg], and
    [/media/photos/broken.jpg] is a file that is not an image. *)
Definition libs : Libs :=
  {| Image := string;
     PILImage_open := fun p =>
       if String.eqb p "/media/photos/cat.jpg" then Returned "cat"
       else if String.eqb p "/media/photos/broken.jpg"
       then Raised (IOError (mk_io_error
                               [PStr "cannot identify image file"]))
       else Raised (IOError (mk_io_error
                               [PInt 2; PStr "No such file or directory";
                                PStr p]));
     Thumbnail_process := fun n img => Returned (img +:+ "@" +:+ Py.str_of_int n);
     Image_save := fun img fmt => Returned (fmt +:+ ":" +:+ img);
     static := fun p => "/static/" +:+ p;
     finders_find := fun p => Some ("/app/static/" +:+ p) |}.

Definition world (files : list (string * string))
    (rows : list (Z * Instance)) : World (gmap string string) :=
  mk_world (list_to_map files) [] [] (list_to_map rows).

End MemStorage.

Module Samples.

Definition photo_field : Field :=
  mk_field "photo" true [100%Z; 200%Z] None ∅.

Definition plain_field : Field :=
  mk_field "photo" false [] None ∅.

Definition avatar_field : Field :=
  mk_field "avatar" true [100%Z] (Some "default_avatar") ∅.

Definition row (key : Z) (nm : option string) : Instance :=
  mk_instance (Some key) "Profile object"
    (<["photo" := nm]> (<["avatar" := None]>
       (<["default_avatar" := Some "img/default.png"]> ∅))).

Definition cat : FieldFile :=
  getattr_file (row 1 (Some "photos/cat.jpg")) photo_field.

Definition broken : FieldFile :=
  getattr_file (row 2 (Some "photos/broken.jpg")) photo_field.

(** A file of a field without thumbnails, in a directory that has no
    numeric subdirectory. *)
Definition scan : FieldFile :=
  getattr_file (row 3 (Some "scans/page.jpg")) plain_field.

(** The empty file of a field with a fallback. *)
Definition avatar : FieldFile := getattr_file (row 4 None) avatar_field.

(** A field that keeps sizes while its thumbnails are switched off. *)
Definition archived_field : Field :=
  mk_field "photo" false [100%Z; 200%Z] None ∅.

Definition files : list (string * string) :=
  [("/media/photos/cat.jpg", "cat");
   ("/media/photos/broken.jpg", "");
   ("/media/photos/100/cat.jpg", "t100");
   ("/media/photos/200/cat.jpg", "t200");
   ("/media/photos/200/dog.jpg", "d200");
   ("/media/photos/old/cat.jpg", "o");
   ("/media/scans/page.jpg", "page")].

(** Nothing persisted yet. *)
Definition fresh : World (gmap string string) := MemStorage.world files [].

(** Record 1 is persisted with [photos/cat.jpg]; [edited] is the same
    record with a new photo, about to be saved. *)
Definition persisted : World (gmap string string) :=
  MemStorage.world files [(1%Z, row 1 (Some "photos/cat.jpg"))].

Definition edited : Instance := row 1 (Some "photos/new.jpg").

End Samples.

Module FurtherSamples.
Import Samples.

(** A field whose fallback names an attribute the records do not have. *)
Definition misconfigured_field : Field :=
  mk_field "avatar" true [100%Z] (Some "mascot") ∅.

Definition misconfigured : FieldFile :=
  getattr_file (row 4 None) misconfigured_field.

(** The empty file of a field with thumbnails and no fallback. *)
Definition blank : FieldFile := getattr_file (row 6 None) photo_field.

(** A file of a field without thumbnails, in a directory that has
    numeric subdirectories. *)
Definition plain_cat : FieldFile :=
  getattr_file (row 1 (Some "photos/cat.jpg")) plain_field.

(** A photo that cannot be opened; its thumbnail of width 200 is stored,
    the one of width 100 is not. *)
Definition dog_field : Field :=
  mk_field "photo" true [200%Z; 100%Z; 50%Z] None ∅.

Definition dog : FieldFile :=
  getattr_file (row 7 (Some "photos/dog.jpg")) dog_field.

(** Record 5 is persisted without a photo and is about to be saved with
    its first one. *)
Definition unillustrated : World (gmap string string) :=
  MemStorage.world files [(5%Z, row 5 (Some ""))].

Definition illustrated : Instance := row 5 (Some "photos/new.jpg").



Definition profile : ModelClass := mk_model "Profile" false.

(** A stand-in for the digest. *)
Definition toy_digest (bytes : string) : string := "md5:" +:+ bytes.

End FurtherSamples.

(** ** Worlds and paths the properties speak about *)

Section Observations.

Context {St : Type} (storage : Storage St).

Implicit Types (w : World St).

(** The world after [storage.save(target, content)]. *)
Definition saved (target content : string) w : World St :=
  mk_world (snd (st_save storage (store w) target content))
           (trace w ++ [Save target content]) (warnings w) (database w).

(** The world after the storage deleted [targets], in order. *)
Definition deleted (targets : list string) w : World St :=
  mk_world (fold_left (st_delete storage) targets (store w))
           (trace w ++ (Delete <$> targets)) (warnings w) (database w).

(** The directory that holds the file stored as [nm]. *)
Definition parent_of (nm : string) : string :=
  posixpath.dirname (st_path storage nm).

(** The names of the purely numeric subdirectories of that directory. *)
Definition numeric_subdirs (nm : string) w : list string :=
  List.filter Py.isdigit (fst (st_listdir storage (store w) (parent_of nm))).

(** The file co-named with [nm] in subdirectory [d]. *)
Definition sibling_in (nm d : string) : string :=
  posixpath.join (parent_of nm) [d; posixpath.basename nm].

(** What deleting the thumbnails of the file stored as [nm] does before
    the file itself goes: nothing on a field without thumbnails. *)
Definition cleanup (fld : Field) (nm : string) w : list event :=
  if thumbnails fld
  then Listdir (parent_of nm)
         :: (Delete <$> (sibling_in nm <$> numeric_subdirs nm w))
  else [].

End Observations.

(** ** Further notions for the properties *)

Section Notions.

Context {St : Type} (storage : Storage St).

(** The thumbnail of width [size] of the file stored as [nm]. *)
Definition thumbnail_of (nm : string) (size : Z) : string :=
  sibling_in storage nm (Py.str_of_int size).

(** The world after existence checks of [targets], in order. *)
Definition checked (targets : list string) (w : World St) : World St :=
  mk_world (store w) (trace w ++ (Exists <$> targets)) (warnings w)
           (database w).

End Notions.

(** The error of [_require_file]. *)
Definition no_file_error (self : FieldFile) : exn :=
  ValueError ("The '" +:+ field_name (field self)
              +:+ "' attribute has no file associated with it.").

(** The error of [_require_thumbnail]. *)
Definition not_enabled_error (self : FieldFile) : exn :=
  ValueError (field_name (field self) +:+ " has not thumbnails enabled.").

(** What the caller of [generate_thumbnail] sees of an exception of the
    imaging library. *)
Definition seen_by_caller (e : exn) : exn :=
  match e with
  | IOError _ => AttributeError "'IOError' object has no attribute 'value'"
  | _ => e
  end.

(** No dot occurs in [s]. *)
Definition no_dot (s : string) : bool :=
  Py.all_chars (fun c => negb (Ascii.eqb c Py.extsep)) s.

(** The format [get_ext] makes of an extension without its dot. *)
Definition pil_format (e : string) : string :=
  if String.eqb (Py.lower e) "jpg" then "jpeg" else Py.lower e.

(** All bytes of a chunked content. *)
Definition all_bytes (chunks : list string) : string :=
  fold_right String.append "" chunks.

(** The configuration a field comes back with from [deconstruct]. *)
Definition round_trip (f : Field) : Field :=
  mk_field (field_name f) (thumbnails f)
           (if thumbnails f then thumbnail_sizes f else [])
           (choice_field f) (base_kwargs f).

(** No separator occurs in [s]. *)
Definition no_sep (s : string) : bool :=
  Py.all_chars (fun c => negb (Py.is_sep c)) s.

(** Unfolding of the two monads. *)
Ltac run :=
  cbv beta iota delta
    [mbind mret M_bind M_ret outcome_bind outcome_ret lift negb].

(** Two string literals differ. *)
Ltac str_ne := apply String.eqb_neq; reflexivity.

(** ** The thumbnail URL, in the words of the specification *)

(** The URL [u] with [segment] put in as a segment of its own right before
    the final segment: [u] is cut after its last separator, and [segment]
    and one separator go in between. *)
Definition insert_before_last_segment (segment u : string) : string :=
  let '(front, final) := posixpath.cut u in
  front +:+ segment +:+ String Py.sep final.

(** * Properties *)

(** ** Facts about strings and paths *)

Module PathFacts.
Import Py posixpath.

Lemma digit_not_sep (c : ascii) : char_isdigit c = true -> is_sep c = false.
Proof.
  unfold char_isdigit, is_sep, sep. intros H.
  destruct (Ascii.eqb_spec c "/"); [subst; discriminate | reflexivity].
Qed.

Lemma digits_no_sep (s : string) :
  all_chars char_isdigit s = true -> no_sep s = true.
Proof.
  unfold no_sep. induction s as [|c r IH]; cbn; [easy|].
  intros [Hc Hr]%andb_prop. now rewrite (digit_not_sep _ Hc), IH.
Qed.

Lemma string_of_uint_digits (u : Decimal.uint) :
  all_chars char_isdigit (NilEmpty.string_of_uint u) = true.
Proof. induction u; cbn; auto. Qed.

(** [str(n)] of a natural number is a non-empty run of digits. *)
Lemma str_of_int_isdigit (n : Z) : (0 <= n)%Z -> isdigit (str_of_int n) = true.
Proof.
  intros Hn. unfold isdigit, str_of_int.
  destruct n as [|q|q]; [reflexivity| |lia].
  cbn [Z.to_int NilZero.string_of_int]. unfold NilZero.string_of_uint.
  destruct (Pos.to_uint q) eqn:E; try reflexivity;
    rewrite <- E at 2; cbn [NilEmpty.string_of_uint str_is_empty negb andb];
    apply string_of_uint_digits.
Qed.

Lemma isdigit_no_sep (s : string) : isdigit s = true -> no_sep s = true.
Proof. unfold isdigit. intros [_ H]%andb_prop. now apply digits_no_sep. Qed.

Lemma isdigit_nonempty (s : string) : isdigit s = true -> str_is_empty s = false.
Proof. unfold isdigit. intros [H _]%andb_prop. now apply negb_true_iff. Qed.

Lemma cut_no_sep (b : string) : no_sep b = true -> cut b = ("", b).
Proof.
  unfold no_sep. induction b as [|c r IH]; cbn; [easy|].
  intros [Hc Hr]%andb_prop. rewrite (IH Hr).
  apply negb_true_iff in Hc. now rewrite Hc.
Qed.

Lemma cut_app_sep (a b : string) :
  no_sep b = true -> cut (a +:+ String sep b) = (a +:+ String sep "", b).
Proof.
  intros Hb. induction a as [|c r IH]; cbn.
  - now rewrite (cut_no_sep _ Hb).
  - rewrite IH. now destruct r.
Qed.

(** The base name of a path has no separator. *)
Lemma basename_no_sep (p : string) : no_sep (basename p) = true.
Proof.
  unfold basename, no_sep. induction p as [|c r IH]; cbn; [easy|].
  destruct (cut r) as [h t]. cbn in IH.
  destruct h; [|exact IH].
  destruct (is_sep c) eqn:E; cbn; [exact IH|].
  now rewrite E, IH.
Qed.

Lemma no_sep_startswith (s : string) : no_sep s = true -> startswith_sep s = false.
Proof.
  destruct s as [|c r]; cbn; [easy|].
  now intros [Hc _]%andb_prop; apply negb_true_iff in Hc.
Qed.

Lemma no_sep_endswith (s : string) : no_sep s = true -> endswith_sep s = false.
Proof.
  unfold no_sep. induction s as [|c r IH]; cbn; [easy|].
  intros [Hc Hr]%andb_prop. apply negb_true_iff in Hc.
  destruct r; [exact Hc | now apply IH].
Qed.

Lemma endswith_app (a s : string) :
  str_is_empty s = false -> endswith_sep (a +:+ s) = endswith_sep s.
Proof.
  intros Hs. induction a as [|c r IH]; cbn; [easy|].
  rewrite IH. destruct (r +:+ s) eqn:E; [|reflexivity].
  destruct r, s; discriminate.
Qed.

Lemma app_nonempty (a s : string) :
  str_is_empty s = false -> str_is_empty (a +:+ s) = false.
Proof. destruct a, s; easy. Qed.

Lemma rstrip_app_sep (a : string) :
  rstrip sep (a +:+ String sep "") = rstrip sep a.
Proof. induction a as [|c r IH]; cbn; [easy|]. now rewrite IH. Qed.

Lemma rstrip_id (a : string) : endswith_sep a = false -> rstrip sep a = a.
Proof.
  induction a as [|c r IH]; cbn; [easy|].
  destruct r as [|c' r'].
  - cbn. unfold is_sep. now intros ->.
  - intros H. rewrite (IH H). cbn.
    now rewrite andb_false_r.
Qed.

(** Joining a directory with one segment that is a run of digits. *)
Lemma join_step_digits (d s : string) :
  isdigit s = true ->
  str_is_empty (join_step d s) = false
  /\ endswith_sep (join_step d s) = false.
Proof.
  intros Hs.
  pose proof (isdigit_nonempty _ Hs) as Hne.
  pose proof (no_sep_endswith _ (isdigit_no_sep _ Hs)) as He.
  unfold join_step.
  rewrite (no_sep_startswith _ (isdigit_no_sep _ Hs)).
  destruct (str_is_empty d || endswith_sep d).
  - split; [now apply app_nonempty | now rewrite endswith_app].
  - split; [now apply app_nonempty |].
    rewrite (endswith_app d (String sep s)) by reflexivity.
    cbn. destruct s; [discriminate | exact He].
Qed.

(** A numeric segment [s] goes between the directory and the file
    name: the result splits back into the directory extended by [s] and
    the file name. *)
Lemma join_segment (d s b : string) :
  isdigit s = true -> no_sep b = true ->
  join d [s; b] = join d [s] +:+ String sep b
  /\ basename (join d [s; b]) = b
  /\ dirname (join d [s; b]) = join d [s].
Proof.
  intros Hs Hb. destruct (join_step_digits d s Hs) as [Hne He].
  assert (Hj : join d [s; b] = join d [s] +:+ String sep b).
  { unfold join. cbn [fold_left]. unfold join_step at 1.
    now rewrite (no_sep_startswith _ Hb), Hne, He. }
  rewrite Hj. unfold basename, dirname. rewrite (cut_app_sep _ _ Hb).
  cbn [fst snd]. rewrite rstrip_app_sep.
  unfold join in *. cbn [fold_left] in *.
  rewrite (rstrip_id _ He), Hne, (app_nonempty _ (String sep "")) by reflexivity.
  now cbn.
Qed.

(** A path below a directory keeps its base name: what comes before
    the last separator does not matter. *)
Lemma cut_app_head (a b : string) :
  fst (cut b) <> "" ->
  snd (cut (a +:+ b)) = snd (cut b) /\ fst (cut (a +:+ b)) <> "".
Proof.
  intros Hb. induction a as [|c r [IHt IHh]]; cbn; [easy|].
  destruct (cut (r +:+ b)) as [h t]. cbn [fst snd] in *.
  destruct h; [contradiction|]. now cbn.
Qed.

Lemma basename_app_sep (a b : string) :
  basename (a +:+ String sep b) = basename b.
Proof.
  unfold basename.
  assert (H : snd (cut (String sep b)) = snd (cut b)
              /\ fst (cut (String sep b)) <> "").
  { cbn. destruct (cut b) as [h t]. now destruct h. }
  destruct H as [Ht Hh].
  now rewrite (proj1 (cut_app_head a (String sep b) Hh)).
Qed.

Lemma basename_app_endswith (a b : string) :
  endswith_sep a = true -> basename (a +:+ b) = basename b.
Proof.
  unfold basename. induction a as [|c r IH]; [discriminate|].
  destruct r as [|c' r'].
  - cbn. intros Hc. destruct (cut b) as [h t]. destruct h; now rewrite ?Hc.
  - intros He. specialize (IH He).
    change (String c (String c' r') +:+ b)
      with (String c (String c' r' +:+ b)).
    cbn [cut]. destruct (cut (String c' r' +:+ b)) as [h t] eqn:E.
    cbn [snd] in IH. destruct h as [|h0 h']; [|exact IH].
    exfalso. clear -E He.
    revert c' t E He. induction r' as [|x r'' IHr]; intros c' t E He.
    + cbn in E, He. destruct (cut b) as [h t']. rewrite He in E.
      now destruct h.
    + change (String c' (String x r'') +:+ b)
        with (String c' (String x r'' +:+ b)) in E.
      cbn [cut] in E. destruct (cut (String x r'' +:+ b)) as [h t'] eqn:E'.
      destruct h; [|discriminate].
      now apply (IHr x t').
Qed.

Lemma basename_join (location nm : string) :
  basename (join location [nm]) = basename nm.
Proof.
  unfold join. cbn [fold_left]. unfold join_step.
  destruct (startswith_sep nm); [reflexivity|].
  destruct location as [|c r]; [reflexivity|].
  cbn [str_is_empty orb].
  destruct (endswith_sep (String c r)) eqn:E.
  - now apply basename_app_endswith.
  - apply basename_app_sep.
Qed.

Lemma append_assoc (a b c : string) : (a +:+ b) +:+ c = a +:+ b +:+ c.
Proof. induction a as [|x r IH]; cbn; [easy|]. now rewrite IH. Qed.

(** [split('/')] ends with what follows the last separator, and joining
    its other items with any last item puts that item after the last
    separator. *)
Lemma split_sep_cut (u : string) :
  exists front,
    split_sep u = front ++ [snd (cut u)]
    /\ forall x, join_sep (front ++ [x]) = fst (cut u) +:+ x.
Proof.
  induction u as [|c r (front & Hs & Hj)].
  - exists []. now cbn.
  - cbn [split_sep cut]. destruct (cut r) as [h t] eqn:Hc.
    cbn [fst snd] in *. destruct (is_sep c) eqn:Hsep.
    + exists ("" :: front). unfold is_sep in Hsep.
      apply Ascii.eqb_eq in Hsep as ->. rewrite Hs. split.
      * now destruct h.
      * intros x. change (("" :: front) ++ [x]) with ("" :: (front ++ [x])).
        cbn [join_sep]. destruct (front ++ [x]) eqn:E.
        { now destruct front. }
        rewrite <- E, Hj. now destruct h.
    + rewrite Hs. destruct front as [|f0 front'].
      * exists []. pose proof (Hj "") as Hh.
        destruct h; [now cbn | discriminate Hh].
      * exists (String c f0 :: front'). cbn [app].
        pose proof (Hj "") as Hh. cbn [app join_sep] in Hh.
        destruct (front' ++ [""]) eqn:E; [now destruct front'|].
        destruct h as [|h0 h'].
        { destruct f0; discriminate. }
        split; [reflexivity|]. intros x. specialize (Hj x).
        cbn [app join_sep] in *.
        destruct (front' ++ [x]) eqn:E'; [now destruct front'|].
        cbn [fst]. change (String c f0 +:+ ?z) with (String c (f0 +:+ z)).
        now rewrite Hj.
Qed.

Lemma list_insert_before_last {A} (x y : A) (l : list A) :
  list_insert (-1) x (l ++ [y]) = l ++ [x; y].
Proof.
  unfold list_insert. rewrite length_app. cbn [length Z.ltb Z.compare].
  replace (Z.to_nat (Z.max 0 (-1 + Z.of_nat (length l + 1))))
    with (length l) by lia.
  now rewrite take_app_length, drop_app_length.
Qed.

Lemma join_sep_cons (a : string) (l k : list string) :
  join_sep (a :: l ++ k) = a +:+ String sep (join_sep (l ++ k))
  \/ (l = [] /\ k = []).
Proof. destruct l, k; auto. Qed.

Lemma join_sep_snoc (l : list string) (x y : string) :
  join_sep (l ++ [x; y]) = join_sep (l ++ [x]) +:+ String sep y.
Proof.
  induction l as [|a l IH]; [reflexivity|].
  rewrite <- !app_comm_cons.
  destruct (join_sep_cons a l [x; y]) as [-> | [_ [=]]].
  destruct (join_sep_cons a l [x]) as [-> | [_ [=]]].
  now rewrite IH, append_assoc.
Qed.

(** What [get_thumbnail_url] does to the URL is what the specification
    says. *)
Lemma url_insert_segment (segment u : string) :
  join_sep (list_insert (-1) segment (split_sep u))
  = insert_before_last_segment segment u.
Proof.
  unfold insert_before_last_segment.
  destruct (split_sep_cut u) as (front & -> & Hj).
  rewrite list_insert_before_last, join_sep_snoc, Hj.
  destruct (cut u) as [h t]. cbn [fst snd]. apply append_assoc.
Qed.

End PathFacts.

Section Properties.

Context {St : Type} (storage : Storage St) (libs : Libs).

Implicit Types (self : FieldFile) (w : World St).

#[local] Abbreviation saved := (saved storage).
#[local] Abbreviation deleted := (deleted storage).
#[local] Abbreviation parent_of := (parent_of storage).
#[local] Abbreviation numeric_subdirs := (numeric_subdirs storage).
#[local] Abbreviation sibling_in := (sibling_in storage).
#[local] Abbreviation cleanup := (cleanup storage).

(** ** The class of a field file *)

Lemma attr_class_choice (f : Field) (c : string) :
  choice_field f = Some c -> attr_class f = ThumbnailChoiceFieldFile.
Proof. unfold attr_class. now intros ->. Qed.

Lemma attr_class_plain (f : Field) :
  choice_field f = None -> attr_class f = ThumbnailsFieldFile.
Proof. unfold attr_class. now intros ->. Qed.

(** With a file, both classes resolve [path] and [url] as [FieldFile]
    does. *)
Lemma path_of_file self :
  file_bool self = true ->
  path storage libs self = Returned (st_path storage <$> name self).
Proof.
  intros Hb. unfold path, StaticChoiceMixin_get_path, FieldFile_get_path,
    FieldFile_require_file.
  rewrite Hb. now destruct (attr_class (field self)).
Qed.

Lemma url_of_file self :
  file_bool self = true ->
  url storage libs self
  = Returned (st_url storage (default "" (name self))).
Proof.
  intros Hb. unfold url, StaticChoiceMixin_get_url, FieldFile_get_url,
    FieldFile_require_file.
  rewrite Hb. now destruct (attr_class (field self)).
Qed.

Lemma file_bool_name self :
  file_bool self = true -> exists nm, name self = Some nm /\ nm <> "".
Proof.
  unfold file_bool, truthy. destruct (name self) as [[|a r]|]; try discriminate.
  intros _. now eexists.
Qed.

(** ** The thumbnail path *)

(** C1: for a thumbnails-enabled field file stored under the file-system
    path [p] (with the base name of its stored name) and every positive
    [size], [get_thumbnail_path(size)] returns
    [join(dirname(p), str(size), basename(p))]; the size is a segment of
    its own right before the file name: the result has the base name of
    [p], and its directory is [dirname(p)] extended by [str(size)]. *)
Theorem get_thumbnail_path_inserts_size self (size : Z) (nm p : string) :
  thumbnails (field self) = true ->
  name self = Some nm ->
  path storage libs self = Returned (Some p) ->
  posixpath.basename nm = posixpath.basename p ->
  (0 < size)%Z ->
  let thumbnail :=
    posixpath.join (posixpath.dirname p)
                   [Py.str_of_int size; posixpath.basename p] in
  get_thumbnail_path storage libs self (SizeInt size) = Returned thumbnail
  /\ posixpath.basename thumbnail = posixpath.basename p
  /\ posixpath.dirname thumbnail
     = posixpath.join (posixpath.dirname p) [Py.str_of_int size].
Proof.
  intros Ht Hn Hp Hb Hs thumbnail. split.
  - unfold get_thumbnail_path, _require_thumbnail.
    rewrite Ht, Hp, Hn. cbn. now rewrite Hb.
  - subst thumbnail.
    apply PathFacts.join_segment.
    + apply PathFacts.str_of_int_isdigit. lia.
    + apply PathFacts.basename_no_sep.
Qed.

(** ** Generating a thumbnail *)

Lemma generate_thumbnail_of_file self size w :
  file_bool self = true ->
  generate_thumbnail storage libs self size w
  = ThumbnailsMixin_generate_thumbnail storage libs self size w.
Proof.
  intros Hb. unfold generate_thumbnail,
    ThumbnailChoiceMixin_generate_thumbnail.
  rewrite Hb. now destruct (attr_class (field self)).
Qed.

Lemma get_thumbnail_path_enabled self size target :
  get_thumbnail_path storage libs self size = Returned target ->
  thumbnails (field self) = true.
Proof.
  unfold get_thumbnail_path, _require_thumbnail.
  now destruct (thumbnails (field self)).
Qed.

(** The target is there already: one existence check and nothing else. *)
Lemma generate_thumbnail_found self size w target :
  file_bool self = true ->
  get_thumbnail_path storage libs self (SizeInt size) = Returned target ->
  st_exists storage (store w) target = true ->
  generate_thumbnail storage libs self size w
  = (Returned tt, record (Exists target) w).
Proof.
  intros Hb Hp He. rewrite generate_thumbnail_of_file by exact Hb.
  unfold ThumbnailsMixin_generate_thumbnail, _require_thumbnail,
    FieldFile_require_file.
  rewrite (get_thumbnail_path_enabled _ _ _ Hp), Hb, Hp.
  unfold storage_exists. run. now rewrite He.
Qed.

(** The target is missing and the source decodes: one existence check,
    then one save. *)
Lemma generate_thumbnail_saved self size w target p image resized content :
  file_bool self = true ->
  get_thumbnail_path storage libs self (SizeInt size) = Returned target ->
  st_exists storage (store w) target = false ->
  path storage libs self = Returned (Some p) ->
  PILImage_open libs p = Returned image ->
  Thumbnail_process libs size image = Returned resized ->
  Image_save libs resized (get_ext target) = Returned content ->
  generate_thumbnail storage libs self size w
  = (Returned tt, saved target content (record (Exists target) w)).
Proof.
  intros Hb Hp He Hpath Ho Ht Hs.
  rewrite generate_thumbnail_of_file by exact Hb.
  unfold ThumbnailsMixin_generate_thumbnail, _require_thumbnail,
    FieldFile_require_file.
  rewrite (get_thumbnail_path_enabled _ _ _ Hp), Hb, Hp.
  unfold storage_exists, try_except_IOError, save_pilimage, storage_save.
  run. rewrite He, Hpath, Ho, Ht, Hs. unfold saved. cbn.
  now destruct (st_save storage (store w) target content).
Qed.

(** C2 (what the code does): when opening or decoding the source raises
    an [IOError], the handler's [e.value] raises [AttributeError], which
    reaches the caller; nothing is logged and nothing is saved. *)
Theorem generate_thumbnail_ioerror_escapes self size w target p e :
  file_bool self = true ->
  get_thumbnail_path storage libs self (SizeInt size) = Returned target ->
  st_exists storage (store w) target = false ->
  path storage libs self = Returned (Some p) ->
  (PILImage_open libs p = Raised (IOError e)
   \/ exists image,
        PILImage_open libs p = Returned image
        /\ Thumbnail_process libs size image = Raised (IOError e)) ->
  generate_thumbnail storage libs self size w
  = (Raised (AttributeError "'IOError' object has no attribute 'value'"),
     record (Exists target) w).
Proof.
  intros Hb Hp He Hpath Hio.
  rewrite generate_thumbnail_of_file by exact Hb.
  unfold ThumbnailsMixin_generate_thumbnail, _require_thumbnail,
    FieldFile_require_file.
  rewrite (get_thumbnail_path_enabled _ _ _ Hp), Hb, Hp.
  unfold storage_exists, try_except_IOError.
  run. rewrite He, Hpath.
  destruct Hio as [Ho | (image & Ho & Ht)].
  - now rewrite Ho.
  - now rewrite Ho, Ht.
Qed.

(** C4: two calls of [generate_thumbnail(size)] in a row, starting with
    the target path free and a source that decodes, save exactly once:
    the first call checks, finds nothing and saves; the second call
    checks, finds the target, and leaves the storage as it is. *)
Theorem generate_thumbnail_twice_saves_once
    self size w target p image resized content :
  file_bool self = true ->
  get_thumbnail_path storage libs self (SizeInt size) = Returned target ->
  st_exists storage (store w) target = false ->
  path storage libs self = Returned (Some p) ->
  PILImage_open libs p = Returned image ->
  Thumbnail_process libs size image = Returned resized ->
  Image_save libs resized (get_ext target) = Returned content ->
  st_exists storage (snd (st_save storage (store w) target content)) target
  = true ->
  let '(r1, w1) := generate_thumbnail storage libs self size w in
  let '(r2, w2) := generate_thumbnail storage libs self size w1 in
  r1 = Returned tt /\ r2 = Returned tt
  /\ trace w2
     = trace w ++ [Exists target; Save target content; Exists target]
  /\ length (List.filter is_save (trace w2))
     = S (length (List.filter is_save (trace w)))
  /\ trace w2 = trace w1 ++ [Exists target]
  /\ store w2 = store w1.
Proof.
  intros Hb Hp He Hpath Ho Ht Hs Hlaw.
  rewrite (generate_thumbnail_saved _ _ _ _ _ _ _ _ Hb Hp He Hpath Ho Ht Hs).
  rewrite (generate_thumbnail_found _ _ _ _ Hb Hp) by exact Hlaw.
  cbn. repeat split.
  - now rewrite <- !app_assoc.
  - rewrite <- !app_assoc, List.filter_app, length_app. cbn. lia.
Qed.

(** ** Removing thumbnails *)

Lemma deleted_nil w : deleted [] w = w.
Proof. destruct w. unfold deleted. cbn. now rewrite app_nil_r. Qed.

Lemma for_each_delete (f : string -> outcome string) (g : string -> string)
    (l : list string) w :
  (forall d, d ∈ l -> f d = Returned (g d)) ->
  for_each l (fun d => lift (f d) ≫= fun target =>
                       storage_delete storage target) w
  = (Returned tt, deleted (g <$> l) w).
Proof.
  revert w. induction l as [|d l IH]; intros w Hf.
  - now rewrite deleted_nil.
  - cbn [for_each]. run. rewrite (Hf d) by left.
    unfold storage_delete at 1. fold (@for_each St).
    change (for_each l ?b ?x) with (for_each l b x).
    specialize (IH (mk_world (st_delete storage (store w) (g d))
                             (trace (record (Delete (g d)) w))
                             (warnings (record (Delete (g d)) w))
                             (database (record (Delete (g d)) w)))).
    unfold mbind, M_bind, lift in IH. cbv beta in IH.
    rewrite IH by (intros; apply Hf; now right).
    unfold deleted. cbn. now rewrite <- app_assoc.
Qed.

Lemma bind_lift {A B} (a : A) (k : A -> M B) w :
  (lift (Returned a) ≫= k) w = k a w.
Proof. reflexivity. Qed.

Lemma bind_listdir {B} (dir : string)
    (k : list string * list string -> M B) w :
  (storage_listdir storage dir ≫= k) w
  = k (st_listdir storage (store w) dir) (record (Listdir dir) w).
Proof. reflexivity. Qed.

Lemma remove_thumbnails_of_file self w :
  file_bool self = true ->
  remove_thumbnails storage libs self w
  = ThumbnailsMixin_remove_thumbnails storage libs self w.
Proof.
  intros Hb. unfold remove_thumbnails,
    ThumbnailChoiceMixin_remove_thumbnails.
  rewrite Hb. now destruct (attr_class (field self)).
Qed.

Lemma get_thumbnail_path_of_file self (nm : string) (size : size_arg) :
  thumbnails (field self) = true ->
  name self = Some nm -> nm <> "" ->
  get_thumbnail_path storage libs self size
  = Returned (posixpath.join (parent_of nm)
                             [str size; posixpath.basename nm]).
Proof.
  intros Ht Hn Hne. unfold get_thumbnail_path, _require_thumbnail.
  rewrite Ht, path_of_file, Hn; [reflexivity|].
  unfold file_bool. rewrite Hn. now destruct nm.
Qed.

(** Where the backend keeps the file named [nm] at
    [join(location, nm)], the thumbnail path is built from that one
    path alone. *)
Lemma get_thumbnail_path_under_location self (nm location : string)
    (size : Z) :
  (forall n, st_path storage n = posixpath.join location [n]) ->
  thumbnails (field self) = true ->
  name self = Some nm -> nm <> "" ->
  let p := posixpath.join location [nm] in
  get_thumbnail_path storage libs self (SizeInt size)
  = Returned (posixpath.join (posixpath.dirname p)
                             [Py.str_of_int size; posixpath.basename p]).
Proof.
  intros Hloc Ht Hn Hne p.
  rewrite (get_thumbnail_path_of_file _ _ _ Ht Hn Hne).
  unfold parent_of. rewrite Hloc. fold p. subst p.
  now rewrite PathFacts.basename_join.
Qed.

Lemma file_bool_of_name self (nm : string) :
  name self = Some nm -> nm <> "" -> file_bool self = true.
Proof. unfold file_bool. intros -> H. now destruct nm. Qed.

Lemma remove_thumbnails_enabled self (nm : string) w :
  thumbnails (field self) = true ->
  name self = Some nm -> nm <> "" ->
  remove_thumbnails storage libs self w
  = (Returned tt,
     deleted (sibling_in nm <$> numeric_subdirs nm w)
             (record (Listdir (parent_of nm)) w)).
Proof.
  intros Ht Hn Hne.
  pose proof (file_bool_of_name _ _ Hn Hne) as Hb.
  rewrite remove_thumbnails_of_file by exact Hb.
  unfold ThumbnailsMixin_remove_thumbnails.
  rewrite path_of_file, Hn by exact Hb.
  cbn [fmap option_fmap option_map]. rewrite bind_lift.
  cbn [os_path_dirname]. rewrite bind_lift, bind_listdir.
  apply for_each_delete.
  intros d _. now apply get_thumbnail_path_of_file.
Qed.

(** C5: on a thumbnails-enabled field with a file, [remove_thumbnails]
    lists the parent directory of the file and then deletes, for each
    purely numeric subdirectory in turn, the file of that subdirectory
    that has the original's base name; these deletions are all it does
    to the storage, and with no such subdirectory it deletes nothing. *)
Theorem remove_thumbnails_deletes_numeric_siblings self (nm : string) w :
  thumbnails (field self) = true ->
  name self = Some nm -> nm <> "" ->
  let sizes := numeric_subdirs nm w in
  let targets := sibling_in nm <$> sizes in
  remove_thumbnails storage libs self w
  = (Returned tt, deleted targets (record (Listdir (parent_of nm)) w))
  /\ Forall (fun d =>
               posixpath.dirname (sibling_in nm d)
               = posixpath.join (parent_of nm) [d]
               /\ posixpath.basename (sibling_in nm d)
                  = posixpath.basename nm) sizes
  /\ (sizes = [] ->
      remove_thumbnails storage libs self w
      = (Returned tt, record (Listdir (parent_of nm)) w)).
Proof.
  intros Ht Hn Hne sizes targets.
  pose proof (remove_thumbnails_enabled _ _ w Ht Hn Hne) as Hrun.
  split; [exact Hrun|]. split.
  - apply Forall_forall. intros d Hd.
    apply list_elem_of_In, List.filter_In in Hd as [_ Hd].
    destruct (PathFacts.join_segment (parent_of nm) d (posixpath.basename nm)
                Hd (PathFacts.basename_no_sep nm)) as (_ & Hbase & Hdir).
    now split.
  - intros Hnil. rewrite Hrun. subst targets. fold sizes. rewrite Hnil.
    now rewrite deleted_nil.
Qed.

(** C8 (what the code does): [remove_thumbnails] on a field without
    thumbnails, for a file whose directory has no numeric subdirectory,
    lists that directory and returns without raising. *)
Theorem remove_thumbnails_disabled_returns self (nm : string) w :
  thumbnails (field self) = false ->
  name self = Some nm -> nm <> "" ->
  numeric_subdirs nm w = [] ->
  remove_thumbnails storage libs self w
  = (Returned tt, record (Listdir (parent_of nm)) w).
Proof.
  intros Ht Hn Hne Hnil.
  pose proof (file_bool_of_name _ _ Hn Hne) as Hb.
  rewrite remove_thumbnails_of_file by exact Hb.
  unfold ThumbnailsMixin_remove_thumbnails.
  rewrite path_of_file, Hn by exact Hb.
  cbn [fmap option_fmap option_map]. rewrite bind_lift.
  cbn [os_path_dirname]. rewrite bind_lift, bind_listdir.
  unfold numeric_subdirs, parent_of in Hnil. now rewrite Hnil.
Qed.

(** The operations that start with [_require_thumbnail] raise a
    [ValueError] that begins with the name of the field. *)
Lemma guarded_operations_raise self (size : Z) (arg : size_arg) w :
  thumbnails (field self) = false ->
  let err := ValueError (field_name (field self)
                         +:+ " has not thumbnails enabled.") in
  ThumbnailsMixin_generate_thumbnail storage libs self size w
  = (Raised err, w)
  /\ generate_thumbnails storage libs self w = (Raised err, w)
  /\ get_thumbnail_url storage libs self size w = (Raised err, w)
  /\ get_thumbnail_path storage libs self arg = Raised err.
Proof.
  intros Ht err.
  unfold ThumbnailsMixin_generate_thumbnail, generate_thumbnails,
    get_thumbnail_url, get_thumbnail_path, _require_thumbnail.
  now rewrite Ht.
Qed.

(** ** The pre-save hook *)

Lemma FieldFile_delete_file self (nm : string) w :
  name self = Some nm -> nm <> "" ->
  exists self',
    FieldFile_delete storage self false w
    = (Returned self', deleted [nm] w).
Proof.
  intros Hn Hne. unfold FieldFile_delete.
  rewrite (file_bool_of_name _ _ Hn Hne), Hn. cbn [negb default].
  eexists. unfold storage_delete, deleted. run. reflexivity.
Qed.

Lemma delete_file self (nm : string) w :
  name self = Some nm -> nm <> "" ->
  exists self' w',
    ThumbnailsMixin_delete storage libs self false w = (Returned self', w')
    /\ trace w' = trace w ++ cleanup (field self) nm w ++ [Delete nm].
Proof.
  intros Hn Hne. unfold ThumbnailsMixin_delete, cleanup.
  destruct (thumbnails (field self)) eqn:Ht.
  - unfold mbind at 1, M_bind at 1.
    rewrite (remove_thumbnails_enabled _ _ w Ht Hn Hne).
    destruct (FieldFile_delete_file self nm
                (deleted (sibling_in nm <$> numeric_subdirs nm w)
                         (record (Listdir (parent_of nm)) w)) Hn Hne)
      as [self' ->].
    eexists _, _. split; [reflexivity|].
    cbn. now rewrite <- !app_assoc.
  - destruct (FieldFile_delete_file self nm w Hn Hne) as [self' Hd].
    unfold mbind at 1, M_bind at 1, mret, M_ret. rewrite Hd.
    eexists _, _. split; [reflexivity|]. reflexivity.
Qed.

Lemma cleanup_no_instance_save (fld : Field) (nm : string) w :
  Forall (fun e => forall k, e <> InstanceSave k) (cleanup fld nm w).
Proof.
  unfold cleanup. destruct (thumbnails fld); [|constructor].
  constructor; [discriminate|].
  apply Forall_forall. intros e (t & -> & _)%list_elem_of_fmap. discriminate.
Qed.

Lemma cleanup_spares (fld : Field) (nm : string) w :
  (thumbnails fld = true ->
   Forall (fun d => sibling_in nm d <> nm) (numeric_subdirs nm w)) ->
  count_occ event_eq_dec (cleanup fld nm w) (Delete nm) = 0.
Proof.
  intros H. apply count_occ_not_In. unfold cleanup.
  destruct (thumbnails fld); [|easy].
  specialize (H eq_refl). intros [Hl | Hin]; [discriminate|].
  apply list_elem_of_In, list_elem_of_fmap in Hin as (t & [= <-] & Ht).
  apply list_elem_of_fmap in Ht as (d & Hd & Hin).
  rewrite Forall_forall in H. now apply (H d Hin).
Qed.

Lemma remove_unused_files_cases (fld : Field) (inst : Instance) w :
  remove_unused_files storage libs fld inst w
  = match pk inst ≫= fun k => database w !! k with
    | Some old =>
        if file_eq (getattr_file old fld) (getattr_file inst fld)
        then (Returned tt, w)
        else (ThumbnailsMixin_delete storage libs (getattr_file old fld)
                false ≫= fun _ => mret tt) w
    | None => (Returned tt, w)
    end.
Proof.
  unfold remove_unused_files, default_manager_get.
  unfold mbind at 1, M_bind at 1.
  destruct (pk inst ≫= fun k => database w !! k); [|reflexivity].
  now destruct (file_eq _ _).
Qed.

(** C3: when the pre-save hook runs for a record, it does nothing at
    all if no record is persisted under the record's primary key or if
    the persisted image value equals the current one.  If the persisted
    image is a file stored as [nm] and the current value differs, the
    hook returns after deleting [nm] from storage exactly once, as its
    last step, and without saving any record; before that it only
    clears the thumbnails of [nm] (none of which is [nm] itself). *)
Theorem remove_unused_files_deletes_previous (fld : Field) (inst : Instance) w :
  let previous := pk inst ≫= fun k => database w !! k in
  let current := getattr_file inst fld in
  (previous = None ->
   remove_unused_files storage libs fld inst w = (Returned tt, w))
  /\ (forall old,
        previous = Some old ->
        name (getattr_file old fld) = name current ->
        remove_unused_files storage libs fld inst w = (Returned tt, w))
  /\ (forall old nm,
        previous = Some old ->
        name (getattr_file old fld) = Some nm -> nm <> "" ->
        name current <> Some nm ->
        (thumbnails fld = true ->
         Forall (fun d => sibling_in nm d <> nm) (numeric_subdirs nm w)) ->
        let new := cleanup fld nm w ++ [Delete nm] in
        exists w',
          remove_unused_files storage libs fld inst w = (Returned tt, w')
          /\ trace w' = trace w ++ new
          /\ count_occ event_eq_dec new (Delete nm) = 1
          /\ Forall (fun e => forall k, e <> InstanceSave k) new).
Proof.
  intros previous current. rewrite remove_unused_files_cases.
  fold previous current. unfold file_eq.
  split; [|split].
  - now intros ->.
  - intros old -> Heq. now rewrite bool_decide_eq_true_2.
  - intros old nm -> Hn Hne Hcur Hsib.
    rewrite bool_decide_eq_false_2 by (rewrite Hn; congruence).
    destruct (delete_file (getattr_file old fld) nm w Hn Hne)
      as (self' & w' & Hd & Htr).
    unfold mbind, M_bind, mret, M_ret. rewrite Hd.
    exists w'.
    split; [reflexivity|]. split; [exact Htr|]. split.
    + rewrite count_occ_app, (cleanup_spares _ _ _ Hsib).
      now rewrite (count_occ_cons_eq _ _ eq_refl).
    + apply Forall_app. split; [apply cleanup_no_instance_save|].
      constructor; [discriminate | constructor].
Qed.

(** A field attached to a concrete model class has its hook run by
    [pre_save]; on an abstract class nothing is connected. *)
Lemma pre_save_runs_hook (fld : Field) (cls : ModelClass) (nm : string)
    (inst : Instance) w :
  let '(fld', receivers) := contribute_to_class fld cls nm [] in
  pre_save_send storage libs receivers (model_label cls) inst w
  = if abstract cls then (Returned tt, w)
    else (remove_unused_files storage libs fld' inst
            ≫= fun _ => mret tt) w.
Proof.
  unfold contribute_to_class, pre_save_send.
  destruct (abstract cls); [reflexivity|].
  cbn. now rewrite String.eqb_refl.
Qed.

(** ** The thumbnail URL *)

Lemma get_thumbnail_url_cases self (size : Z) w (u : string) :
  thumbnails (field self) = true ->
  url storage libs self = Returned u ->
  get_thumbnail_url storage libs self size w
  = if Py.str_is_empty u then (Returned None, w)
    else match generate_thumbnail storage libs self size w with
         | (Returned _, w') =>
             (Returned
                (Some (insert_before_last_segment (Py.str_of_int size) u)),
              w')
         | (Raised e, w') => (Raised e, w')
         end.
Proof.
  intros Ht Hu. unfold get_thumbnail_url, _require_thumbnail.
  rewrite Ht, Hu. cbn [negb]. rewrite !bind_lift.
  destruct u as [|a r]; [reflexivity|]. cbn [Py.str_is_empty negb].
  unfold mbind at 1, M_bind at 1.
  destruct (generate_thumbnail storage libs self size w) as [[[]|e] w'];
    [|reflexivity].
  rewrite bind_lift. unfold mret, M_ret.
  now rewrite PathFacts.url_insert_segment.
Qed.

(** With a file whose thumbnail is in storage already, or can be made,
    the URL does come back, and the thumbnail is in storage then. *)
Lemma get_thumbnail_url_returns self (size : Z) w (u target : string) :
  thumbnails (field self) = true ->
  file_bool self = true ->
  url storage libs self = Returned u -> u <> "" ->
  get_thumbnail_path storage libs self (SizeInt size) = Returned target ->
  st_exists storage (store w) target = true
  \/ (exists p image resized content,
        path storage libs self = Returned (Some p)
        /\ PILImage_open libs p = Returned image
        /\ Thumbnail_process libs size image = Returned resized
        /\ Image_save libs resized (get_ext target) = Returned content
        /\ st_exists storage
             (snd (st_save storage (store w) target content)) target
           = true) ->
  exists w',
    get_thumbnail_url storage libs self size w
    = (Returned (Some (insert_before_last_segment (Py.str_of_int size) u)),
       w')
    /\ st_exists storage (store w') target = true.
Proof.
  intros Ht Hb Hu Hne Hp Hgen.
  rewrite (get_thumbnail_url_cases _ _ _ _ Ht Hu).
  destruct u as [|a r]; [contradiction|]. cbn [Py.str_is_empty].
  destruct (st_exists storage (store w) target) eqn:He.
  - rewrite (generate_thumbnail_found _ _ _ _ Hb Hp He).
    eexists. split; [reflexivity|]. exact He.
  - destruct Hgen as [|(p & image & resized & content & Hpath & Ho & Hth
                        & Hs & Hlaw)]; [discriminate|].
    rewrite (generate_thumbnail_saved _ _ _ _ _ _ _ _ Hb Hp He Hpath Ho Hth Hs).
    eexists. split; [reflexivity|]. exact Hlaw.
Qed.

(** C10: on a thumbnails-enabled field file whose url is [u]: if [u] is
    empty, [get_thumbnail_url(size)] returns [None] and touches nothing;
    otherwise it first runs [generate_thumbnail(size)] and, once that
    has returned, returns [u] with [str(size)] put in as a segment right
    before the final segment (an exception of the generation reaches the
    caller instead).  For a file whose thumbnail is stored already or can
    be made, the URL does come back and the thumbnail is stored then. *)
Theorem get_thumbnail_url_inserts_size self (size : Z) w (u : string) :
  thumbnails (field self) = true ->
  url storage libs self = Returned u ->
  let thumbnail_url := insert_before_last_segment (Py.str_of_int size) u in
  (u = "" -> get_thumbnail_url storage libs self size w = (Returned None, w))
  /\ (u <> "" ->
      get_thumbnail_url storage libs self size w
      = match generate_thumbnail storage libs self size w with
        | (Returned _, w') => (Returned (Some thumbnail_url), w')
        | (Raised e, w') => (Raised e, w')
        end)
  /\ (u <> "" -> file_bool self = true ->
      forall target,
        get_thumbnail_path storage libs self (SizeInt size) = Returned target ->
        st_exists storage (store w) target = true
        \/ (exists p image resized content,
              path storage libs self = Returned (Some p)
              /\ PILImage_open libs p = Returned image
              /\ Thumbnail_process libs size image = Returned resized
              /\ Image_save libs resized (get_ext target) = Returned content
              /\ st_exists storage
                   (snd (st_save storage (store w) target content)) target
                 = true) ->
        exists w',
          get_thumbnail_url storage libs self size w
          = (Returned (Some thumbnail_url), w')
          /\ st_exists storage (store w') target = true).
Proof.
  intros Ht Hu thumbnail_url. split; [|split].
  - intros ->. now rewrite (get_thumbnail_url_cases _ _ _ _ Ht Hu).
  - intros Hne. rewrite (get_thumbnail_url_cases _ _ _ _ Ht Hu).
    now destruct u.
  - intros Hne Hb target Hp Hgen.
    exact (get_thumbnail_url_returns _ _ _ _ _ Ht Hb Hu Hne Hp Hgen).
Qed.

(** ** Static fallback *)

(** C6: for a field with a fallback field present on the owning record,
    [url] and [path] are the static resolver's URL and file-system path
    when the primary file is empty and the fallback value is non-empty,
    and the default [FieldFile] url and path in every other case. *)
Theorem static_fallback_url_path self (c : string) (v : option string) :
  choice_field (field self) = Some c ->
  attrs (instance self) !! c = Some v ->
  (forall s, file_bool self = false -> v = Some s -> s <> "" ->
     url storage libs self = Returned (static libs s)
     /\ path storage libs self = Returned (finders_find libs s))
  /\ (file_bool self = true \/ truthy v = false ->
      url storage libs self = FieldFile_get_url storage self
      /\ path storage libs self = FieldFile_get_path storage self).
Proof.
  intros Hc Hv.
  unfold url, path. rewrite (attr_class_choice _ _ Hc).
  unfold StaticChoiceMixin_get_url, StaticChoiceMixin_get_path,
    StaticChoiceMixin_get_choice_field.
  rewrite Hc. cbn. rewrite Hv. cbn.
  split.
  - intros s Hb -> Hs. rewrite Hb. cbn.
    destruct s as [|a r]; [contradiction|]. now cbn.
  - intros [Hb | Ht].
    + now rewrite Hb.
    + rewrite Ht. now destruct (file_bool self).
Qed.

(** ** Thumbnails suppressed while the fallback is active *)

(** C7: on a combined thumbnail-and-fallback field file whose primary
    file is empty, [generate_thumbnail] and [remove_thumbnails] return
    normally and leave the world as it was: no storage call, nothing
    written or deleted, nothing logged. *)
Theorem fallback_suppresses_thumbnails self (c : string) (size : Z) w :
  choice_field (field self) = Some c ->
  file_bool self = false ->
  generate_thumbnail storage libs self size w = (Returned tt, w)
  /\ remove_thumbnails storage libs self w = (Returned tt, w).
Proof.
  intros Hc Hb.
  unfold generate_thumbnail, remove_thumbnails.
  rewrite (attr_class_choice _ _ Hc).
  unfold ThumbnailChoiceMixin_generate_thumbnail,
    ThumbnailChoiceMixin_remove_thumbnails.
  now rewrite Hb.
Qed.

End Properties.

(** ** [deconstruct] and back *)

Section Deconstruct.

Lemma sizes_back (l : list Z) : kw_sizes (Some (PSeq (PInt <$> l))) = Returned l.
Proof.
  unfold kw_sizes.
  replace (mapM as_int (PInt <$> l)) with (Some l); [reflexivity|].
  symmetry. apply mapM_Some_2.
  induction l; constructor; auto.
Qed.

Lemma UniqueImageField_round_trip (f : Field) (kw : kwargs) :
  kw !! "thumbnails" = None ->
  kw !! "thumbnail_sizes" = None ->
  UniqueImageField_init
    (if thumbnails f
     then <["thumbnail_sizes" := PSeq (PInt <$> thumbnail_sizes f)]>
            (<["thumbnails" := PBool (thumbnails f)]> kw)
     else kw)
  = Returned (mk_field "" (thumbnails f)
                (if thumbnails f then thumbnail_sizes f else []) None kw).
Proof.
  intros H1 H2. unfold UniqueImageField_init.
  destruct (thumbnails f).
  - rewrite (lookup_insert_ne _ "thumbnail_sizes" "thumbnails") by str_ne.
    rewrite lookup_insert_eq.
    rewrite lookup_insert_eq, sizes_back. cbn.
    rewrite delete_insert_eq.
    rewrite (delete_id _ "thumbnail_sizes")
      by (rewrite lookup_insert_ne; [exact H2 | str_ne]).
    rewrite delete_insert_eq. now rewrite (delete_id _ _ H1).
  - rewrite H1, H2. cbn.
    now rewrite (delete_id _ _ H2), (delete_id _ _ H1).
Qed.

(** C9 (as the code has it): from what [deconstruct] returns, a field is
    rebuilt with the same name, the same flag, the same fallback field
    name and the same framework arguments; the size list comes back as
    it was when thumbnails are enabled, and as the empty default when
    they are not. *)
Theorem deconstruct_round_trip (f : Field) :
  base_kwargs f !! "thumbnails" = None ->
  base_kwargs f !! "thumbnail_sizes" = None ->
  base_kwargs f !! "choice_field" = None ->
  reconstruct (deconstruct f) = Returned (round_trip f)
  /\ (thumbnails f = true -> round_trip f = f).
Proof.
  intros H1 H2 H3. split.
  - unfold reconstruct, deconstruct, SelectableUniqueImageField_deconstruct,
      UniqueImageField_deconstruct, ImageField_deconstruct, class_path,
      round_trip.
    destruct (choice_field f) as [c|] eqn:Hc.
    + cbn [String.eqb Ascii.eqb Bool.eqb]. cbn [default].
      unfold SelectableUniqueImageField_init.
      rewrite lookup_insert_eq, delete_insert_eq.
      rewrite delete_id.
      * rewrite (UniqueImageField_round_trip f _ H1 H2). now cbn.
      * destruct (thumbnails f); [|exact H3].
        rewrite !lookup_insert_ne; [exact H3 | str_ne ..].
    + cbn [String.eqb Ascii.eqb Bool.eqb].
      rewrite (UniqueImageField_round_trip f _ H1 H2). now cbn.
  - intros Ht. unfold round_trip. destruct f. cbn in *. now subst.
Qed.

End Deconstruct.

(** ** File extensions *)

Module ExtFacts.
Import Py posixpath.

Lemma char_lower_idem (c : ascii) : char_lower (char_lower c) = char_lower c.
Proof. destruct c as [[] [] [] [] [] [] [] []]; reflexivity. Qed.

Lemma char_lower_dot (c : ascii) :
  Ascii.eqb (char_lower c) extsep = Ascii.eqb c extsep.
Proof. destruct c as [[] [] [] [] [] [] [] []]; reflexivity. Qed.

Lemma char_lower_sep (c : ascii) : is_sep (char_lower c) = is_sep c.
Proof. destruct c as [[] [] [] [] [] [] [] []]; reflexivity. Qed.

Lemma lower_idem (s : string) : lower (lower s) = lower s.
Proof. induction s; cbn; [easy|]. now rewrite char_lower_idem, IHs. Qed.

Lemma no_dot_lower (s : string) : no_dot (lower s) = no_dot s.
Proof.
  unfold no_dot. induction s; cbn; [easy|].
  now rewrite char_lower_dot, IHs.
Qed.

Lemma no_sep_lower (s : string) : no_sep (lower s) = no_sep s.
Proof.
  unfold no_sep. induction s; cbn; [easy|].
  now rewrite char_lower_sep, IHs.
Qed.

Lemma all_chars_app (f : ascii -> bool) (a b : string) :
  all_chars f (a +:+ b) = all_chars f a && all_chars f b.
Proof. induction a; cbn; [easy|]. now rewrite IHa, andb_assoc. Qed.

Lemma no_dot_cut_dot (t : string) : no_dot t = true -> cut_dot t = None.
Proof.
  unfold no_dot. induction t as [|c r IH]; cbn; [easy|].
  intros [Hc Hr]%andb_prop. rewrite (IH Hr).
  apply negb_true_iff in Hc. now rewrite Hc.
Qed.

(** What [cut_dot] finds: the text splits there, and the second part is
    a dot followed by text without dots. *)
Lemma cut_dot_Some (t root ext : string) :
  cut_dot t = Some (root, ext) ->
  exists e, ext = String extsep e /\ no_dot e = true /\ t = root +:+ ext.
Proof.
  revert root ext. induction t as [|c r IH]; intros root ext; cbn; [easy|].
  destruct (cut_dot r) as [[h x]|] eqn:E.
  - intros [= <- <-]. destruct (IH h x eq_refl) as (e & -> & He & ->).
    exists e. now cbn.
  - destruct (Ascii.eqb_spec c extsep) as [->|]; [|easy].
    intros [= <- <-]. exists r. repeat split.
    clear IH. unfold no_dot. induction r as [|a r IH]; cbn in *; [easy|].
    destruct (cut_dot r) as [[? ?]|]; [easy|].
    destruct (Ascii.eqb a extsep); [easy|]. now apply IH.
Qed.

Lemma cut_dot_last (s e : string) :
  no_dot e = true ->
  cut_dot (s +:+ String extsep e) = Some (s, String extsep e).
Proof.
  intros He. induction s as [|c r IH]; cbn.
  - now rewrite (no_dot_cut_dot _ He).
  - now rewrite IH.
Qed.

Lemma rstrip_no_dot (e : string) : no_dot e = true -> rstrip extsep e = e.
Proof.
  unfold no_dot. induction e as [|c r IH]; cbn; [easy|].
  intros [Hc Hr]%andb_prop. rewrite (IH Hr).
  apply negb_true_iff in Hc. now rewrite Hc.
Qed.

Lemma lstrip_no_dot (e : string) : no_dot e = true -> lstrip extsep e = e.
Proof.
  unfold no_dot. destruct e as [|c r]; cbn; [easy|].
  intros [Hc _]%andb_prop. apply negb_true_iff in Hc. now rewrite Hc.
Qed.

Lemma strip_extension (e : string) :
  no_dot e = true -> strip extsep (String extsep e) = e.
Proof.
  intros He. unfold strip. cbn.
  now rewrite (lstrip_no_dot _ He), (rstrip_no_dot _ He).
Qed.

(** [get_ext] by what [cut_dot] finds in the base name. *)
Lemma get_ext_cases (p : string) :
  get_ext p
  = match cut_dot (basename p) with
    | Some (root, ext) =>
        if str_is_empty (lstrip extsep root) then ""
        else pil_format (strip extsep ext)
    | None => ""
    end.
Proof.
  unfold get_ext, splitext, basename, pil_format.
  destruct (cut p) as [head tail]. cbn [snd].
  destruct (cut_dot tail) as [[root ext]|]; [|reflexivity].
  now destruct (str_is_empty (lstrip extsep root)).
Qed.

Lemma get_ext_by_basename (p q : string) :
  basename p = basename q -> get_ext p = get_ext q.
Proof. intros H. now rewrite !get_ext_cases, H. Qed.

Lemma pil_format_shape (e : string) :
  no_dot e = true -> no_sep e = true ->
  no_dot (pil_format e) = true /\ no_sep (pil_format e) = true
  /\ lower (pil_format e) = pil_format e /\ pil_format e <> "jpg".
Proof.
  intros Hd Hs. unfold pil_format.
  destruct (String.eqb_spec (lower e) "jpg") as [E|E].
  - repeat split; discriminate.
  - rewrite no_dot_lower, no_sep_lower, lower_idem. now repeat split.
Qed.

(** X1: for a path whose base name is [s.e], where [e] has no dot and
    [s] is more than dots, [get_ext] is [e] in lower case, with ["jpeg"]
    for ["jpg"]. *)
Theorem get_ext_of_extension (p s e : string) :
  basename p = s +:+ String extsep e ->
  no_dot e = true ->
  lstrip extsep s <> "" ->
  get_ext p = pil_format e.
Proof.
  intros Hb He Hs. rewrite get_ext_cases, Hb, (cut_dot_last _ _ He).
  rewrite (strip_extension _ He).
  destruct (lstrip extsep s); [contradiction | reflexivity].
Qed.

(** X2: whatever the path, what [get_ext] returns is in lower case, has
    no dot and no separator, and is never ["jpg"]. *)
Theorem get_ext_shape (p : string) :
  no_dot (get_ext p) = true /\ no_sep (get_ext p) = true
  /\ lower (get_ext p) = get_ext p /\ get_ext p <> "jpg".
Proof.
  rewrite get_ext_cases.
  destruct (cut_dot (basename p)) as [[root ext]|] eqn:E;
    [|repeat split; discriminate].
  destruct (str_is_empty (lstrip extsep root));
    [repeat split; discriminate|].
  destruct (cut_dot_Some _ _ _ E) as (e & -> & He & Hb).
  rewrite (strip_extension _ He). apply pil_format_shape; [exact He|].
  pose proof (PathFacts.basename_no_sep p) as Hn.
  rewrite Hb in Hn. unfold no_sep in *.
  rewrite all_chars_app in Hn. apply andb_prop in Hn as [_ Hn].
  exact Hn.
Qed.

(** X3: [get_ext] looks at the base name only: dots in directory names
    do not count. *)
Theorem get_ext_ignores_directory (p : string) :
  get_ext p = get_ext (basename p).
Proof.
  rewrite !get_ext_cases.
  replace (basename (basename p)) with (basename p); [reflexivity|].
  unfold basename at 2.
  now rewrite (PathFacts.cut_no_sep _ (PathFacts.basename_no_sep p)).
Qed.

(** X4: a base name that has no dot after its leading dots has no
    extension: [get_ext] returns the empty string. *)
Theorem get_ext_without_extension (p : string) :
  no_dot (lstrip extsep (basename p)) = true -> get_ext p = "".
Proof.
  rewrite get_ext_cases. generalize (basename p). clear p.
  intros t Ht.
  assert (H : match cut_dot t with
              | Some (root, _) => lstrip extsep root = ""
              | None => True
              end).
  { induction t as [|c r IH]; [easy|].
    cbn in Ht. destruct (Ascii.eqb_spec c extsep) as [->|Hc].
    - specialize (IH Ht). cbn. destruct (cut_dot r) as [[h x]|]; now cbn.
    - now rewrite (no_dot_cut_dot _ Ht). }
  destruct (cut_dot t) as [[root ext]|]; [|reflexivity].
  now rewrite H.
Qed.

End ExtFacts.

(** ** More on thumbnails, deletion and saving *)

Section Further.

Context {St : Type} (storage : Storage St) (libs : Libs).

Implicit Types (self : FieldFile) (w : World St).

#[local] Abbreviation saved := (saved storage).
#[local] Abbreviation deleted := (deleted storage).
#[local] Abbreviation checked := (@checked St).
#[local] Abbreviation parent_of := (parent_of storage).
#[local] Abbreviation numeric_subdirs := (numeric_subdirs storage).
#[local] Abbreviation sibling_in := (sibling_in storage).
#[local] Abbreviation thumbnail_of := (thumbnail_of storage).
#[local] Abbreviation cleanup := (cleanup storage).

(** *** [save_pilimage] *)

(** X5: [save_pilimage] stores nothing unless the image encodes: an
    exception of the encoder reaches the caller with the world untouched,
    and otherwise there is exactly one [storage.save], of the encoded
    bytes under the given path, whose result is returned. *)
Theorem save_pilimage_all_or_nothing (image : Image libs) (target : string) w :
  (forall e, Image_save libs image (get_ext target) = Raised e ->
     save_pilimage storage libs image target w = (Raised e, w))
  /\ (forall content,
        Image_save libs image (get_ext target) = Returned content ->
        save_pilimage storage libs image target w
        = (Returned (fst (st_save storage (store w) target content)),
           saved target content w)).
Proof.
  unfold save_pilimage, storage_save, saved. split.
  - intros e He. run. now rewrite He.
  - intros content Hc. run. rewrite Hc. cbn.
    now destruct (st_save storage (store w) target content).
Qed.

(** *** [generate_thumbnail] and [generate_thumbnails] *)

Lemma library_failure self size w target p e :
  file_bool self = true ->
  get_thumbnail_path storage libs self (SizeInt size) = Returned target ->
  st_exists storage (store w) target = false ->
  path storage libs self = Returned (Some p) ->
  (PILImage_open libs p = Raised e
   \/ (exists image,
         PILImage_open libs p = Returned image
         /\ Thumbnail_process libs size image = Raised e)
   \/ (exists image resized,
         PILImage_open libs p = Returned image
         /\ Thumbnail_process libs size image = Returned resized
         /\ Image_save libs resized (get_ext target) = Raised e)) ->
  generate_thumbnail storage libs self size w
  = (Raised (seen_by_caller e), record (Exists target) w).
Proof.
  intros Hb Hp He Hpath Hfail.
  rewrite generate_thumbnail_of_file by exact Hb.
  unfold ThumbnailsMixin_generate_thumbnail, _require_thumbnail,
    FieldFile_require_file.
  rewrite (get_thumbnail_path_enabled _ _ _ _ _ Hp), Hb, Hp.
  unfold storage_exists, try_except_IOError, save_pilimage.
  run. rewrite He, Hpath.
  destruct Hfail as [Ho | [(image & Ho & Ht) | (image & resized & Ho & Ht & Hs)]].
  - rewrite Ho. now destruct e.
  - rewrite Ho, Ht. now destruct e.
  - rewrite Ho, Ht, Hs. now destruct e.
Qed.

(** X6: when the thumbnail is missing and the imaging library raises
    while opening, resizing or encoding, nothing is saved or logged and
    the caller gets an exception: the library's own if it is not an
    [IOError], and the handler's [AttributeError] if it is. *)
Theorem generate_thumbnail_library_failure self size w target p e :
  file_bool self = true ->
  get_thumbnail_path storage libs self (SizeInt size) = Returned target ->
  st_exists storage (store w) target = false ->
  path storage libs self = Returned (Some p) ->
  (PILImage_open libs p = Raised e
   \/ (exists image,
         PILImage_open libs p = Returned image
         /\ Thumbnail_process libs size image = Raised e)
   \/ (exists image resized,
         PILImage_open libs p = Returned image
         /\ Thumbnail_process libs size image = Returned resized
         /\ Image_save libs resized (get_ext target) = Raised e)) ->
  generate_thumbnail storage libs self size w
  = (Raised (seen_by_caller e), record (Exists target) w)
  /\ ((forall io, e <> IOError io) -> seen_by_caller e = e).
Proof.
  intros Hb Hp He Hpath Hfail. split.
  - now apply (library_failure _ _ _ _ p).
  - intros Hio. destruct e as [| | |io| |]; try reflexivity.
    now destruct (Hio io).
Qed.

Lemma checked_cons (t : string) (l : list string) w :
  checked l (record (Exists t) w) = checked (t :: l) w.
Proof. unfold checked, record. cbn. now rewrite <- app_assoc. Qed.

Lemma checked_nil w : checked [] w = w.
Proof. destruct w. unfold checked. cbn. now rewrite app_nil_r. Qed.

Lemma checked_snoc (t : string) (l : list string) w :
  record (Exists t) (checked l w) = checked (l ++ [t]) w.
Proof. unfold checked, record. cbn. now rewrite fmap_app, app_assoc. Qed.

Lemma thumbnail_path_of self (nm : string) (size : Z) :
  thumbnails (field self) = true ->
  name self = Some nm -> nm <> "" ->
  get_thumbnail_path storage libs self (SizeInt size)
  = Returned (thumbnail_of nm size).
Proof. intros. now apply get_thumbnail_path_of_file. Qed.

Lemma for_each_found self (nm : string) (l : list Z) w :
  thumbnails (field self) = true ->
  name self = Some nm -> nm <> "" ->
  Forall (fun size => st_exists storage (store w) (thumbnail_of nm size) = true)
         l ->
  for_each l (generate_thumbnail storage libs self) w
  = (Returned tt, checked (thumbnail_of nm <$> l) w).
Proof.
  intros Ht Hn Hne. revert w. induction l as [|size l IH]; intros w Hall.
  - now rewrite checked_nil.
  - apply Forall_cons in Hall as [Hsize Hall]. cbn [for_each].
    unfold mbind at 1, M_bind at 1.
    rewrite (generate_thumbnail_found storage libs self size w
               (thumbnail_of nm size) (file_bool_of_name _ _ Hn Hne)
               (thumbnail_path_of _ _ _ Ht Hn Hne) Hsize).
    rewrite IH by exact Hall. now rewrite fmap_cons, checked_cons.
Qed.

Lemma for_each_app {A} (l k : list A) (body : A -> M unit) w :
  for_each (l ++ k) body w
  = (for_each l body ≫= fun _ => for_each k body) w.
Proof.
  revert w. induction l as [|a l IH]; intros w; [reflexivity|].
  cbn [app for_each]. unfold mbind, M_bind.
  destruct (body a w) as [[[]|e] w']; [|reflexivity].
  rewrite IH. reflexivity.
Qed.

Lemma generate_thumbnails_found self (nm : string) w :
  thumbnails (field self) = true ->
  name self = Some nm -> nm <> "" ->
  Forall (fun size => st_exists storage (store w) (thumbnail_of nm size) = true)
         (thumbnail_sizes (field self)) ->
  generate_thumbnails storage libs self w
  = (Returned tt,
     checked (thumbnail_of nm <$> thumbnail_sizes (field self)) w).
Proof.
  intros Ht Hn Hne Hall. unfold generate_thumbnails, _require_thumbnail.
  rewrite Ht. cbn [negb]. rewrite bind_lift.
  now apply for_each_found.
Qed.

(** X7: when the thumbnails of all configured sizes are in storage
    already, [generate_thumbnails] only checks each of them, in the order
    of the size list, and leaves storage and log as they are. *)
Theorem generate_thumbnails_all_found self (nm : string) w :
  thumbnails (field self) = true ->
  name self = Some nm -> nm <> "" ->
  Forall (fun size => st_exists storage (store w) (thumbnail_of nm size) = true)
         (thumbnail_sizes (field self)) ->
  generate_thumbnails storage libs self w
  = (Returned tt,
     checked (thumbnail_of nm <$> thumbnail_sizes (field self)) w).
Proof. apply generate_thumbnails_found. Qed.

Lemma generate_thumbnails_failure self (nm : string) w
    (found rest : list Z) (size : Z) (e : exn) :
  thumbnails (field self) = true ->
  name self = Some nm -> nm <> "" ->
  thumbnail_sizes (field self) = found ++ size :: rest ->
  Forall (fun s => st_exists storage (store w) (thumbnail_of nm s) = true)
         found ->
  st_exists storage (store w) (thumbnail_of nm size) = false ->
  PILImage_open libs (st_path storage nm) = Raised e ->
  generate_thumbnails storage libs self w
  = (Raised (seen_by_caller e),
     checked (thumbnail_of nm <$> (found ++ [size])) w).
Proof.
  intros Ht Hn Hne Hsizes Hfound Hmiss Hopen.
  unfold generate_thumbnails, _require_thumbnail.
  rewrite Ht. cbn [negb]. rewrite bind_lift, Hsizes, for_each_app.
  unfold mbind at 1, M_bind at 1.
  rewrite (for_each_found _ _ _ _ Ht Hn Hne Hfound).
  cbn [for_each]. unfold mbind at 1, M_bind at 1.
  pose proof (file_bool_of_name _ _ Hn Hne) as Hb.
  rewrite (library_failure self size _ (thumbnail_of nm size)
             (st_path storage nm) e Hb (thumbnail_path_of _ _ _ Ht Hn Hne)).
  - now rewrite checked_snoc, fmap_app.
  - exact Hmiss.
  - rewrite path_of_file by exact Hb. now rewrite Hn.
  - now left.
Qed.

(** X8: [generate_thumbnails] stops at the first size it cannot make: if
    the source does not open, the sizes found in storage are checked, the
    first missing one is checked, the exception reaches the caller, and
    the sizes after it are not looked at. *)
Theorem generate_thumbnails_stops_at_failure self (nm : string) w
    (found rest : list Z) (size : Z) (e : exn) :
  thumbnails (field self) = true ->
  name self = Some nm -> nm <> "" ->
  thumbnail_sizes (field self) = found ++ size :: rest ->
  Forall (fun s => st_exists storage (store w) (thumbnail_of nm s) = true)
         found ->
  st_exists storage (store w) (thumbnail_of nm size) = false ->
  PILImage_open libs (st_path storage nm) = Raised e ->
  generate_thumbnails storage libs self w
  = (Raised (seen_by_caller e),
     checked (thumbnail_of nm <$> (found ++ [size])) w).
Proof. apply generate_thumbnails_failure. Qed.

(** *** Field files without a file *)

Lemma path_no_file self :
  choice_field (field self) = None -> file_bool self = false ->
  path storage libs self = Raised (no_file_error self)
  /\ url storage libs self = Raised (no_file_error self).
Proof.
  intros Hc Hb. unfold path, url. rewrite (attr_class_plain _ Hc).
  unfold FieldFile_get_path, FieldFile_get_url, FieldFile_require_file.
  now rewrite Hb.
Qed.

(** X9: on a thumbnails-enabled [UniqueImageField] file that is empty,
    [generate_thumbnail], [get_thumbnail_url], [get_thumbnail_path] and
    [remove_thumbnails] all raise the [ValueError] of a missing file, and
    none of them touches the storage. *)
Theorem thumbnail_operations_need_a_file self (size : Z) (arg : size_arg) w :
  choice_field (field self) = None ->
  thumbnails (field self) = true ->
  file_bool self = false ->
  generate_thumbnail storage libs self size w = (Raised (no_file_error self), w)
  /\ get_thumbnail_url storage libs self size w
     = (Raised (no_file_error self), w)
  /\ get_thumbnail_path storage libs self arg = Raised (no_file_error self)
  /\ remove_thumbnails storage libs self w = (Raised (no_file_error self), w).
Proof.
  intros Hc Ht Hb. destruct (path_no_file self Hc Hb) as [Hp Hu].
  unfold generate_thumbnail, remove_thumbnails, get_thumbnail_url,
    get_thumbnail_path.
  rewrite (attr_class_plain _ Hc).
  unfold ThumbnailsMixin_generate_thumbnail, ThumbnailsMixin_remove_thumbnails,
    _require_thumbnail, FieldFile_require_file.
  rewrite Ht, Hb, Hp, Hu. now repeat split.
Qed.

(** *** [remove_thumbnails] without thumbnails *)

(** X10: on a field without thumbnails, [remove_thumbnails] for a file
    whose directory has a numeric subdirectory lists the directory and
    then raises the [ValueError] of [_require_thumbnail]: nothing is
    deleted. *)
Theorem remove_thumbnails_disabled_raises self (nm : string) w :
  thumbnails (field self) = false ->
  name self = Some nm -> nm <> "" ->
  numeric_subdirs nm w <> [] ->
  remove_thumbnails storage libs self w
  = (Raised (not_enabled_error self), record (Listdir (parent_of nm)) w).
Proof.
  intros Ht Hn Hne Hdirs.
  pose proof (file_bool_of_name _ _ Hn Hne) as Hb.
  rewrite remove_thumbnails_of_file by exact Hb.
  unfold ThumbnailsMixin_remove_thumbnails.
  rewrite path_of_file, Hn by exact Hb.
  cbn [fmap option_fmap option_map]. rewrite bind_lift.
  cbn [os_path_dirname]. rewrite bind_lift, bind_listdir.
  unfold numeric_subdirs, parent_of in Hdirs.
  destruct (List.filter Py.isdigit _) as [|d rest]; [contradiction|].
  cbn [for_each]. unfold get_thumbnail_path, _require_thumbnail.
  now rewrite Ht.
Qed.

(** X23: on a field without thumbnails, [generate_thumbnail] (on any
    file of a [UniqueImageField], and on a non-empty file of a field with
    a fallback), [generate_thumbnails], [get_thumbnail_url] and
    [get_thumbnail_path] raise the [ValueError] that starts with the
    field's name, before anything else is looked at: the world is
    untouched, also when the file is empty. *)
Theorem disabled_operations_raise self (size : Z) (arg : size_arg) w :
  thumbnails (field self) = false ->
  (choice_field (field self) = None \/ file_bool self = true ->
   generate_thumbnail storage libs self size w
   = (Raised (not_enabled_error self), w))
  /\ generate_thumbnails storage libs self w
     = (Raised (not_enabled_error self), w)
  /\ get_thumbnail_url storage libs self size w
     = (Raised (not_enabled_error self), w)
  /\ get_thumbnail_path storage libs self arg
     = Raised (not_enabled_error self).
Proof.
  intros Ht.
  assert (Hgen : ThumbnailsMixin_generate_thumbnail storage libs self size w
                 = (Raised (not_enabled_error self), w)).
  { unfold ThumbnailsMixin_generate_thumbnail, _require_thumbnail.
    now rewrite Ht. }
  split; [|unfold generate_thumbnails, get_thumbnail_url, get_thumbnail_path,
             _require_thumbnail; now rewrite Ht].
  intros [Hc | Hb].
  - unfold generate_thumbnail. now rewrite (attr_class_plain _ Hc).
  - now rewrite generate_thumbnail_of_file.
Qed.

(** X24: a thumbnail is encoded in the format of the original's
    extension: for a width that is not negative, [get_ext] of the
    thumbnail path is [get_ext] of the file's name. *)
Theorem thumbnail_format_follows_name self (nm : string) (size : Z) :
  thumbnails (field self) = true ->
  name self = Some nm -> nm <> "" ->
  (0 <= size)%Z ->
  exists target,
    get_thumbnail_path storage libs self (SizeInt size) = Returned target
    /\ get_ext target = get_ext nm.
Proof.
  intros Ht Hn Hne Hsize. exists (thumbnail_of nm size).
  split; [now apply thumbnail_path_of|].
  apply ExtFacts.get_ext_by_basename.
  apply (PathFacts.join_segment (parent_of nm) (Py.str_of_int size)
           (posixpath.basename nm)).
  - now apply PathFacts.str_of_int_isdigit.
  - apply PathFacts.basename_no_sep.
Qed.

(** *** Deleting *)

Lemma delete_empty_raises self (save : bool) w :
  choice_field (field self) = None ->
  thumbnails (field self) = true ->
  file_bool self = false ->
  ThumbnailsMixin_delete storage libs self save w
  = (Raised (no_file_error self), w).
Proof.
  intros Hc Ht Hb. unfold ThumbnailsMixin_delete. rewrite Ht.
  unfold remove_thumbnails. rewrite (attr_class_plain _ Hc).
  unfold ThumbnailsMixin_remove_thumbnails.
  rewrite (proj1 (path_no_file self Hc Hb)). reflexivity.
Qed.

Lemma delete_empty_returns self (save : bool) w :
  file_bool self = false ->
  thumbnails (field self) = false \/ choice_field (field self) <> None ->
  ThumbnailsMixin_delete storage libs self save w = (Returned self, w).
Proof.
  intros Hb Hcase. unfold ThumbnailsMixin_delete, FieldFile_delete.
  rewrite Hb. cbn [negb].
  destruct (thumbnails (field self)) eqn:Ht; [|reflexivity].
  destruct Hcase as [|Hc]; [discriminate|].
  unfold remove_thumbnails, attr_class.
  destruct (choice_field (field self)); [|contradiction].
  unfold ThumbnailChoiceMixin_remove_thumbnails. now rewrite Hb.
Qed.

(** X11: [delete] of an empty file.  On a [UniqueImageField] with
    thumbnails it raises the [ValueError] of a missing file (the
    thumbnails are looked for before the file is tested); without
    thumbnails, or on a field with a fallback, it returns and does
    nothing. *)
Theorem delete_of_empty_file self (save : bool) w :
  file_bool self = false ->
  (choice_field (field self) = None -> thumbnails (field self) = true ->
   ThumbnailsMixin_delete storage libs self save w
   = (Raised (no_file_error self), w))
  /\ (thumbnails (field self) = false \/ choice_field (field self) <> None ->
      ThumbnailsMixin_delete storage libs self save w = (Returned self, w)).
Proof.
  intros Hb. split.
  - intros Hc Ht. now apply delete_empty_raises.
  - now apply delete_empty_returns.
Qed.

(** X12: the pre-save hook for a record whose persisted image is empty
    and whose current image differs (the record gets its first image): on
    a [UniqueImageField] with thumbnails the hook raises [ValueError]; on
    any other field it returns and does nothing. *)
Theorem pre_save_hook_without_previous_file (fld : Field)
    (inst old : Instance) w :
  pk inst ≫= (fun k => database w !! k) = Some old ->
  file_bool (getattr_file old fld) = false ->
  name (getattr_file old fld) <> name (getattr_file inst fld) ->
  (choice_field fld = None -> thumbnails fld = true ->
   remove_unused_files storage libs fld inst w
   = (Raised (no_file_error (getattr_file old fld)), w))
  /\ (thumbnails fld = false \/ choice_field fld <> None ->
      remove_unused_files storage libs fld inst w = (Returned tt, w)).
Proof.
  intros Hold Hb Hne. rewrite remove_unused_files_cases, Hold.
  unfold file_eq. rewrite bool_decide_eq_false_2 by exact Hne.
  unfold mbind, M_bind. split.
  - intros Hc Ht.
    now rewrite (delete_empty_raises (getattr_file old fld) false w Hc Ht Hb).
  - intros Hcase.
    now rewrite (delete_empty_returns (getattr_file old fld) false w Hb Hcase).
Qed.


(** *** The fallback *)

(** X14: a fallback field that the instance does not have is noticed
    only while the file is empty: then [url] and [path] raise
    [ImproperlyConfigured] naming the instance and the field; with a file
    both are the storage's url and path of the file. *)
Theorem misconfigured_fallback self (c : string) :
  choice_field (field self) = Some c ->
  attrs (instance self) !! c = None ->
  let err :=
    ImproperlyConfigured
      (instance_str (instance self) +:+ " has no " +:+ c +:+ " field.") in
  (file_bool self = false ->
   url storage libs self = Raised err /\ path storage libs self = Raised err)
  /\ (forall nm, name self = Some nm -> nm <> "" ->
        url storage libs self = Returned (st_url storage nm)
        /\ path storage libs self = Returned (Some (st_path storage nm))).
Proof.
  intros Hc Hmiss err. split.
  - intros Hb. unfold url, path. rewrite (attr_class_choice _ _ Hc).
    unfold StaticChoiceMixin_get_url, StaticChoiceMixin_get_path,
      StaticChoiceMixin_get_choice_field.
    rewrite Hb, Hc. cbn. now rewrite Hmiss.
  - intros nm Hn Hne. pose proof (file_bool_of_name _ _ Hn Hne) as Hb.
    rewrite (url_of_file storage libs _ Hb), (path_of_file storage libs _ Hb).
    now rewrite Hn.
Qed.

(** X15: while the fallback is in force (empty file, non-empty fallback
    value) on a field with thumbnails, [get_thumbnail_url(size)] returns
    the static URL with [str(size)] put in before its last segment, and
    generates nothing: the world is as before. *)
Theorem get_thumbnail_url_of_fallback self (c s : string) (size : Z) w :
  thumbnails (field self) = true ->
  choice_field (field self) = Some c ->
  attrs (instance self) !! c = Some (Some s) -> s <> "" ->
  file_bool self = false ->
  static libs s <> "" ->
  get_thumbnail_url storage libs self size w
  = (Returned
       (Some (insert_before_last_segment (Py.str_of_int size) (static libs s))),
     w).
Proof.
  intros Ht Hc Hv Hs Hb Hu.
  assert (Hurl : url storage libs self = Returned (static libs s)).
  { unfold url. rewrite (attr_class_choice _ _ Hc).
    unfold StaticChoiceMixin_get_url, StaticChoiceMixin_get_choice_field.
    rewrite Hb, Hc. cbn. rewrite Hv. cbn.
    destruct s; [contradiction | reflexivity]. }
  rewrite (get_thumbnail_url_cases storage libs _ _ _ _ Ht Hurl).
  destruct (static libs s) eqn:E; [contradiction|]. cbn [Py.str_is_empty].
  unfold generate_thumbnail. rewrite (attr_class_choice _ _ Hc).
  unfold ThumbnailChoiceMixin_generate_thumbnail. now rewrite Hb.
Qed.

(** *** The [pre_save] signal *)

(** X16: [contribute_to_class] gives the field its name and connects its
    hook for the class it is added to, and for no other sender: saving an
    instance of that class runs [remove_unused_files], saving anything
    else runs nothing, and on an abstract class nothing is connected. *)
Theorem pre_save_senders (fld : Field) (cls : ModelClass) (nm other : string)
    (inst : Instance) w :
  let fld' := fst (contribute_to_class fld cls nm []) in
  let receivers := snd (contribute_to_class fld cls nm []) in
  field_name fld' = nm
  /\ (abstract cls = true -> receivers = [])
  /\ (abstract cls = false ->
      pre_save_send storage libs receivers (model_label cls) inst w
      = (remove_unused_files storage libs fld' inst ≫= fun _ => mret tt) w)
  /\ (other <> model_label cls ->
      pre_save_send storage libs receivers other inst w = (Returned tt, w)).
Proof.
  unfold contribute_to_class, pre_save_send. cbn [fst snd field_name].
  split; [reflexivity|]. split; [|split].
  - now intros ->.
  - intros ->. cbn. now rewrite String.eqb_refl.
  - intros Hother. destruct (abstract cls); [reflexivity|]. cbn.
    apply not_eq_sym, String.eqb_neq in Hother. now rewrite Hother.
Qed.

End Further.

(** ** Saving *)

Section SavingFacts.

Context {St : Type} (storage : Storage St) (libs : Libs).
Context (generate_filename : Field -> Instance -> string -> string).

Implicit Types (self : FieldFile) (w : World St).

#[local] Abbreviation checked := (@checked St).
#[local] Abbreviation thumbnail_of := (thumbnail_of storage).





End SavingFacts.

(** ** [deconstruct] *)

Section DeconstructFacts.

Lemma reconstruct_deconstruct (f : Field) :
  base_kwargs f !! "thumbnails" = None ->
  base_kwargs f !! "thumbnail_sizes" = None ->
  base_kwargs f !! "choice_field" = None ->
  reconstruct (deconstruct f) = Returned (round_trip f).
Proof.
  intros H1 H2 H3.
  unfold reconstruct, deconstruct, SelectableUniqueImageField_deconstruct,
    UniqueImageField_deconstruct, ImageField_deconstruct, class_path,
    round_trip.
  destruct (choice_field f) as [c|] eqn:Hc.
  - cbn [String.eqb Ascii.eqb Bool.eqb]. cbn [default].
    unfold SelectableUniqueImageField_init.
    rewrite lookup_insert_eq, delete_insert_eq.
    rewrite delete_id.
    + rewrite (UniqueImageField_round_trip f _ H1 H2). now cbn.
    + destruct (thumbnails f); [|exact H3].
      rewrite !lookup_insert_ne; [exact H3 | str_ne ..].
  - cbn [String.eqb Ascii.eqb Bool.eqb].
    rewrite (UniqueImageField_round_trip f _ H1 H2). now cbn.
Qed.

(** X20: what [deconstruct] emits.  ['thumbnails'] and
    ['thumbnail_sizes'] are there together, exactly when thumbnails are
    enabled, with the field's values; ['choice_field'] is there exactly
    for a field with a fallback; every other keyword argument is the
    framework's own. *)
Theorem deconstruct_keys (f : Field) :
  base_kwargs f !! "thumbnails" = None ->
  base_kwargs f !! "thumbnail_sizes" = None ->
  base_kwargs f !! "choice_field" = None ->
  let kw := snd (deconstruct f) in
  kw !! "thumbnails" = (if thumbnails f then Some (PBool true) else None)
  /\ kw !! "thumbnail_sizes"
     = (if thumbnails f then Some (PSeq (PInt <$> thumbnail_sizes f))
        else None)
  /\ kw !! "choice_field" = PStr <$> choice_field f
  /\ (forall k, k <> "thumbnails" -> k <> "thumbnail_sizes" ->
        k <> "choice_field" -> kw !! k = base_kwargs f !! k).
Proof.
  intros H1 H2 H3.
  unfold deconstruct, SelectableUniqueImageField_deconstruct,
    UniqueImageField_deconstruct, ImageField_deconstruct.
  destruct (choice_field f) as [c|], (thumbnails f) eqn:Ht; cbn [snd default];
    repeat split;
    try (intros k K1 K2 K3);
    rewrite ?(lookup_insert_ne _ "choice_field" "thumbnails"),
            ?(lookup_insert_ne _ "choice_field" "thumbnail_sizes"),
            ?(lookup_insert_ne _ "thumbnail_sizes" "thumbnails"),
            ?lookup_insert_eq, ?lookup_insert_ne
      by (try str_ne; congruence);
    try assumption; try reflexivity.
Qed.

(** X21: the rebuilt field deconstructs to what it was built from: a
    second [deconstruct] gives the same name, path, arguments and keyword
    arguments as the first, sizes dropped or not. *)
Theorem deconstruct_stable (f f' : Field) :
  base_kwargs f !! "thumbnails" = None ->
  base_kwargs f !! "thumbnail_sizes" = None ->
  base_kwargs f !! "choice_field" = None ->
  reconstruct (deconstruct f) = Returned f' ->
  deconstruct f' = deconstruct f.
Proof.
  intros H1 H2 H3. rewrite (reconstruct_deconstruct f H1 H2 H3).
  intros [= <-].
  unfold round_trip, deconstruct, SelectableUniqueImageField_deconstruct,
    UniqueImageField_deconstruct, ImageField_deconstruct, class_path.
  cbn [choice_field thumbnails thumbnail_sizes field_name base_kwargs].
  now destruct (choice_field f), (thumbnails f).
Qed.

End DeconstructFacts.

(** ** Checksums *)

Section ChecksumFacts.

Context (md5_hexdigest_of : string -> string).

Lemma append_empty (a : string) : a +:+ "" = a.
Proof. induction a as [|c r IH]; cbn; [easy|]. now rewrite IH. Qed.

Lemma md5_fed_all (chunks : list string) (m : md5) :
  md5_fed (fold_left md5_update chunks m) = md5_fed m +:+ all_bytes chunks.
Proof.
  revert m. induction chunks as [|c l IH]; intros m; cbn.
  - now rewrite append_empty.
  - rewrite IH. cbn. apply PathFacts.append_assoc.
Qed.

(** X22: [md5_checksum] is the digest of all bytes of the content, in
    order: how the content is cut into chunks makes no difference, and
    empty chunks count for nothing. *)
Theorem md5_checksum_of_all_bytes (chunks chunks' : list string) :
  md5_checksum md5_hexdigest_of chunks = md5_hexdigest_of (all_bytes chunks)
  /\ (all_bytes chunks = all_bytes chunks' ->
      md5_checksum md5_hexdigest_of chunks
      = md5_checksum md5_hexdigest_of chunks').
Proof.
  assert (H : forall l, md5_checksum md5_hexdigest_of l
                        = md5_hexdigest_of (all_bytes l)).
  { intros l. unfold md5_checksum, md5_hexdigest. now rewrite md5_fed_all. }
  split; [apply H|]. intros Heq. now rewrite !H, Heq.
Qed.

End ChecksumFacts.

(** ** The properties at work on the in-memory storage *)

Module Instances.
Import MemStorage Samples.

Lemma get_thumbnail_path_inserts_size_witness :
  get_thumbnail_path backend libs cat (SizeInt 100)
  = Returned "/media/photos/100/cat.jpg".
Proof.
  exact (proj1 (get_thumbnail_path_inserts_size backend libs cat 100
                  "photos/cat.jpg" "/media/photos/cat.jpg"
                  eq_refl eq_refl eq_refl eq_refl eq_refl)).
Defined.

Lemma generate_thumbnail_ioerror_escapes_witness :
  PILImage_open libs "/media/photos/broken.jpg"
  = Raised (IOError (mk_io_error [PStr "cannot identify image file"]))
  /\ generate_thumbnail backend libs broken 300 fresh
     = (Raised (AttributeError "'IOError' object has no attribute 'value'"),
        record (Exists "/media/photos/300/broken.jpg") fresh).
Proof.
  split; [reflexivity|].
  apply (generate_thumbnail_ioerror_escapes backend libs broken 300 fresh
           "/media/photos/300/broken.jpg" "/media/photos/broken.jpg"
           (mk_io_error [PStr "cannot identify image file"]));
    try reflexivity.
  left. reflexivity.
Defined.

Lemma generate_thumbnail_twice_saves_once_witness :
  let '(r1, w1) := generate_thumbnail backend libs cat 300 fresh in
  let '(r2, w2) := generate_thumbnail backend libs cat 300 w1 in
  trace w2 = [Exists "/media/photos/300/cat.jpg";
              Save "/media/photos/300/cat.jpg" "jpeg:cat@300";
              Exists "/media/photos/300/cat.jpg"].
Proof.
  pose proof (generate_thumbnail_twice_saves_once backend libs cat 300 fresh
                "/media/photos/300/cat.jpg" "/media/photos/cat.jpg"
                "cat" "cat@300" "jpeg:cat@300"
                eq_refl eq_refl eq_refl eq_refl eq_refl eq_refl eq_refl
                eq_refl) as H.
  destruct (generate_thumbnail backend libs cat 300 fresh) as [r1 w1].
  destruct (generate_thumbnail backend libs cat 300 w1) as [r2 w2].
  exact (proj1 (proj2 (proj2 H))).
Defined.

Lemma remove_thumbnails_deletes_numeric_siblings_witness :
  remove_thumbnails backend libs cat fresh
  = (Returned tt,
     deleted backend
       ["/media/photos/100/cat.jpg"; "/media/photos/200/cat.jpg"]
       (record (Listdir "/media/photos") fresh)).
Proof.
  refine (proj1 (remove_thumbnails_deletes_numeric_siblings backend libs cat
                   "photos/cat.jpg" fresh eq_refl eq_refl _)).
  discriminate.
Defined.

Lemma remove_thumbnails_disabled_returns_witness :
  thumbnails (field scan) = false
  /\ remove_thumbnails backend libs scan fresh
     = (Returned tt, record (Listdir "/media/scans") fresh).
Proof.
  split; [reflexivity|].
  refine (remove_thumbnails_disabled_returns backend libs scan
            "scans/page.jpg" fresh eq_refl eq_refl _ eq_refl).
  discriminate.
Defined.

Lemma remove_unused_files_deletes_previous_witness :
  exists w',
    remove_unused_files backend libs photo_field edited persisted
    = (Returned tt, w')
    /\ trace w' = [Listdir "/media/photos";
                   Delete "/media/photos/100/cat.jpg";
                   Delete "/media/photos/200/cat.jpg";
                   Delete "photos/cat.jpg"].
Proof.
  assert (Hold : (pk edited ≫= fun k => database persisted !! k)
                 = Some (row 1 (Some "photos/cat.jpg")))
    by (vm_compute; reflexivity).
  assert (Hsib : thumbnails photo_field = true ->
                 Forall (fun d => sibling_in backend "photos/cat.jpg" d
                                  <> "photos/cat.jpg")
                        (numeric_subdirs backend "photos/cat.jpg" persisted)).
  { intros _. vm_compute. repeat constructor; discriminate. }
  destruct (proj2 (proj2 (remove_unused_files_deletes_previous backend libs
                            photo_field edited persisted))
              (row 1 (Some "photos/cat.jpg")) "photos/cat.jpg"
              Hold eq_refl ltac:(discriminate) ltac:(discriminate) Hsib)
    as (w' & Hrun & Htrace & _).
  exists w'. split; [exact Hrun|].
  vm_compute in Htrace. exact Htrace.
Defined.

Lemma static_fallback_url_path_witness :
  url backend libs avatar = Returned "/static/img/default.png"
  /\ path backend libs avatar = Returned (Some "/app/static/img/default.png").
Proof.
  refine (proj1 (static_fallback_url_path backend libs avatar
                   "default_avatar" (Some "img/default.png")
                   eq_refl eq_refl)
            "img/default.png" eq_refl eq_refl _).
  discriminate.
Defined.

Lemma fallback_suppresses_thumbnails_witness :
  generate_thumbnail backend libs avatar 100 fresh = (Returned tt, fresh)
  /\ remove_thumbnails backend libs avatar fresh = (Returned tt, fresh).
Proof.
  exact (fallback_suppresses_thumbnails backend libs avatar
           "default_avatar" 100 fresh eq_refl eq_refl).
Defined.

Lemma deconstruct_round_trip_witness :
  reconstruct (deconstruct avatar_field) = Returned avatar_field.
Proof.
  exact (proj1 (deconstruct_round_trip avatar_field
                  eq_refl eq_refl eq_refl)).
Defined.

(** C9, as stated, fails: a field that keeps sizes while thumbnails are
    switched off does not get its size list back. *)
Lemma deconstruct_forgets_sizes_when_disabled :
  ~ exists f',
      reconstruct (deconstruct archived_field) = Returned f'
      /\ thumbnails f' = thumbnails archived_field
      /\ thumbnail_sizes f' = thumbnail_sizes archived_field
      /\ choice_field f' = choice_field archived_field.
Proof.
  intros (f' & Hrun & _ & Hsizes & _).
  vm_compute in Hrun. injection Hrun as <-. discriminate Hsizes.
Qed.

Lemma get_thumbnail_url_inserts_size_witness :
  get_thumbnail_url backend libs cat 300 fresh
  = (Returned (Some "/media/photos/300/cat.jpg"),
     saved backend "/media/photos/300/cat.jpg" "jpeg:cat@300"
       (record (Exists "/media/photos/300/cat.jpg") fresh)).
Proof.
  refine (eq_trans
            (proj1 (proj2 (get_thumbnail_url_inserts_size backend libs cat 300
                             fresh "/media/photos/cat.jpg" eq_refl eq_refl))
               _) _).
  - discriminate.
  - reflexivity.
Defined.

(** The two extension examples of the specification. *)
Example get_ext_upper_jpg : get_ext "a.JPG" = "jpeg".
Proof. reflexivity. Qed.

Example get_ext_png : get_ext "a.png" = "png".
Proof. reflexivity. Qed.

End Instances.

(** ** The further properties at work *)

Module FurtherInstances.
Import MemStorage Samples FurtherSamples.

Lemma get_ext_of_extension_witness :
  get_ext "photos/archive.tar.GZ" = "gz".
Proof.
  refine (ExtFacts.get_ext_of_extension "photos/archive.tar.GZ"
            "archive.tar" "GZ" eq_refl eq_refl _).
  discriminate.
Defined.

Lemma get_ext_without_extension_witness :
  get_ext "photos.d/.hidden" = "".
Proof.
  exact (ExtFacts.get_ext_without_extension "photos.d/.hidden" eq_refl).
Defined.

Lemma save_pilimage_all_or_nothing_witness :
  save_pilimage backend libs ("cat@300" : Image libs)
    "/media/photos/300/cat.jpg" fresh
  = (Returned "/media/photos/300/cat.jpg",
     saved backend "/media/photos/300/cat.jpg" "jpeg:cat@300" fresh).
Proof.
  exact (proj2 (save_pilimage_all_or_nothing backend libs
                  ("cat@300" : Image libs) "/media/photos/300/cat.jpg" fresh)
           "jpeg:cat@300" eq_refl).
Defined.

Lemma generate_thumbnail_library_failure_witness :
  generate_thumbnail backend libs broken 300 fresh
  = (Raised (AttributeError "'IOError' object has no attribute 'value'"),
     record (Exists "/media/photos/300/broken.jpg") fresh).
Proof.
  refine (proj1 (generate_thumbnail_library_failure backend libs broken 300
                   fresh "/media/photos/300/broken.jpg"
                   "/media/photos/broken.jpg"
                   (IOError (mk_io_error [PStr "cannot identify image file"]))
                   eq_refl eq_refl eq_refl eq_refl _)).
  left. reflexivity.
Defined.

Lemma generate_thumbnails_all_found_witness :
  generate_thumbnails backend libs cat fresh
  = (Returned tt,
     checked ["/media/photos/100/cat.jpg"; "/media/photos/200/cat.jpg"] fresh).
Proof.
  refine (generate_thumbnails_all_found backend libs cat "photos/cat.jpg"
            fresh eq_refl eq_refl _ _).
  - discriminate.
  - repeat constructor.
Defined.

Lemma generate_thumbnails_stops_at_failure_witness :
  generate_thumbnails backend libs dog fresh
  = (Raised (AttributeError "'IOError' object has no attribute 'value'"),
     checked ["/media/photos/200/dog.jpg"; "/media/photos/100/dog.jpg"] fresh).
Proof.
  refine (generate_thumbnails_stops_at_failure backend libs dog
            "photos/dog.jpg" fresh [200%Z] [50%Z] 100
            (IOError (mk_io_error [PInt 2; PStr "No such file or directory";
                                   PStr "/media/photos/dog.jpg"]))
            eq_refl eq_refl _ eq_refl _ eq_refl eq_refl).
  - discriminate.
  - repeat constructor.
Defined.

Lemma thumbnail_operations_need_a_file_witness :
  generate_thumbnail backend libs blank 100 fresh
  = (Raised (ValueError
               "The 'photo' attribute has no file associated with it."),
     fresh).
Proof.
  exact (proj1 (thumbnail_operations_need_a_file backend libs blank 100
                  (SizeInt 100) fresh eq_refl eq_refl eq_refl)).
Defined.

Lemma remove_thumbnails_disabled_raises_witness :
  remove_thumbnails backend libs plain_cat fresh
  = (Raised (ValueError "photo has not thumbnails enabled."),
     record (Listdir "/media/photos") fresh).
Proof.
  refine (remove_thumbnails_disabled_raises backend libs plain_cat
            "photos/cat.jpg" fresh eq_refl eq_refl _ _).
  - discriminate.
  - vm_compute. discriminate.
Defined.

Lemma disabled_operations_raise_witness :
  generate_thumbnail backend libs scan 100 fresh
  = (Raised (ValueError "photo has not thumbnails enabled."), fresh).
Proof.
  refine (proj1 (disabled_operations_raise backend libs scan 100
                   (SizeInt 100) fresh eq_refl) _).
  now left.
Defined.

Lemma delete_of_empty_file_witness :
  ThumbnailsMixin_delete backend libs blank false fresh
  = (Raised (ValueError
               "The 'photo' attribute has no file associated with it."),
     fresh).
Proof.
  exact (proj1 (delete_of_empty_file backend libs blank false fresh eq_refl)
           eq_refl eq_refl).
Defined.

Lemma pre_save_hook_without_previous_file_witness :
  remove_unused_files backend libs photo_field illustrated unillustrated
  = (Raised (ValueError
               "The 'photo' attribute has no file associated with it."),
     unillustrated).
Proof.
  assert (Hold : (pk illustrated ≫= fun k => database unillustrated !! k)
                 = Some (row 5 (Some "")))
    by (vm_compute; reflexivity).
  refine (proj1 (pre_save_hook_without_previous_file backend libs photo_field
                   illustrated (row 5 (Some "")) unillustrated
                   Hold eq_refl _) eq_refl eq_refl).
  discriminate.
Defined.


Lemma misconfigured_fallback_witness :
  url backend libs misconfigured
  = Raised (ImproperlyConfigured "Profile object has no mascot field.").
Proof.
  exact (proj1 (proj1 (misconfigured_fallback backend libs misconfigured
                         "mascot" eq_refl eq_refl) eq_refl)).
Defined.

Lemma get_thumbnail_url_of_fallback_witness :
  get_thumbnail_url backend libs avatar 100 fresh
  = (Returned (Some "/static/img/100/default.png"), fresh).
Proof.
  refine (get_thumbnail_url_of_fallback backend libs avatar "default_avatar"
            "img/default.png" 100 fresh eq_refl eq_refl eq_refl _ eq_refl _);
    discriminate.
Defined.

Lemma pre_save_senders_witness :
  pre_save_send backend libs
    (snd (contribute_to_class photo_field profile "photo" []))
    "Album" edited persisted
  = (Returned tt, persisted).
Proof.
  refine (proj2 (proj2 (proj2 (pre_save_senders backend libs photo_field
                                 profile "photo" "Album" edited persisted)))
            _).
  discriminate.
Defined.




Lemma deconstruct_keys_witness :
  snd (deconstruct archived_field) !! "thumbnail_sizes" = None
  /\ snd (deconstruct avatar_field) !! "choice_field"
     = Some (PStr "default_avatar").
Proof.
  split.
  - exact (proj1 (proj2 (deconstruct_keys archived_field
                           eq_refl eq_refl eq_refl))).
  - exact (proj1 (proj2 (proj2 (deconstruct_keys avatar_field
                                  eq_refl eq_refl eq_refl)))).
Defined.

Lemma deconstruct_stable_witness :
  deconstruct (round_trip archived_field) = deconstruct archived_field.
Proof.
  exact (deconstruct_stable archived_field (round_trip archived_field)
           eq_refl eq_refl eq_refl eq_refl).
Defined.

Lemma md5_checksum_of_all_bytes_witness :
  md5_checksum toy_digest ["ab"; "c"] = md5_checksum toy_digest ["a"; ""; "bc"].
Proof.
  exact (proj2 (md5_checksum_of_all_bytes toy_digest ["ab"; "c"]
                  ["a"; ""; "bc"]) eq_refl).
Defined.

Lemma thumbnail_format_follows_name_witness :
  exists target,
    get_thumbnail_path backend libs cat (SizeInt 300) = Returned target
    /\ get_ext target = "jpeg".
Proof.
  refine (thumbnail_format_follows_name backend libs cat "photos/cat.jpg" 300
            eq_refl eq_refl _ _); [discriminate | lia].
Defined.

End FurtherInstances.
